(** * feincms3_forms.models: a shallow embedding and its verified properties

    The development follows [feincms3_forms/models.py]: the dotted-path
    resolution of [FormType], the name normalisation of [NameField], the
    plugin contract of [FormFieldBase], the class preparation and the union
    query of [ConfiguredForm], and the visibility policy, choice parsing and
    default-value validation of [FormField] / [SimpleFieldBase].

    Conventions.
    - A Python [str] is a [string]; one [ascii] stands for one code point
      below 256.
    - A Python [dict] keyed by strings is a [gmap string _]; a dict built from
      a sequence of pairs keeps the last binding of a repeated key.
    - A call that may raise returns a [result]; the exceptions that the module
      raises, catches or lets through are the constructors of [exn].
    - Behaviour of the interpreter and of the libraries the module calls
      ([str.splitlines], [str.split], [str.strip], [re], Django's
      [import_string], [RegexValidator], feincms3's [validation_error], the
      storage behind a queryset) is written out next to its first use. *)

From Stdlib Require Import Ascii String.
From stdpp Require Import base option list strings pretty gmap.

Open Scope string_scope.
Set Warnings "-register-all".

(** * The model *)

(** ** Python values and exceptions *)

(** The values that cross the functions below. [VObj] is any other object
    (a class, a function, a module, a [Region]), known by its identity. *)
Inductive pyval : Type :=
  | VNone
  | VBool (b : bool)
  | VInt (z : Z)
  | VStr (s : string)
  | VList (l : list pyval)
  | VObj (id : nat).

#[global] Instance pyval_inhabited : Inhabited pyval := populate VNone.

(** A [ValidationError] is attached to one field ([Some field]) or to no
    field in particular ([None]). *)
Inductive exn : Type :=
  | AttributeError
  | KeyError
  | TypeError
  | IndexError
  | ImportError
  | ModuleNotFoundError
  | DatabaseError
  | NotImplementedError (msg : string)
  | ValidationError (field : option string) (msg : string).

Inductive result (A : Type) : Type :=
  | Ok (a : A)
  | Raise (e : exn).
Arguments Ok {A} a.
Arguments Raise {A} e.

(** Sequencing: the first exception raised ends the computation. *)
#[global] Instance result_ret : MRet result := fun A a => Ok a.
#[global] Instance result_bind : MBind result := fun A B k r =>
  match r with
  | Ok a => k a
  | Raise e => Raise e
  end.

(** [isinstance(value, str)] and the string inside. *)
Definition as_str (v : pyval) : option string :=
  match v with
  | VStr s => Some s
  | _ => None
  end.

(** [value is not None] *)
Definition is_not_None (v : pyval) : bool :=
  match v with
  | VNone => false
  | _ => true
  end.

(** Only lists are unhashable among the values modelled. *)
Definition hashable (v : pyval) : bool :=
  match v with
  | VList _ => false
  | _ => true
  end.

(** ** Strings *)

Definition code (c : ascii) : nat := nat_of_ascii c.

Definition in_range (lo hi : nat) (c : ascii) : bool :=
  (lo <=? code c)%nat && (code c <=? hi)%nat.

(** [a-z] and [0-9] *)
Definition is_lower (c : ascii) : bool := in_range 97 122 c.
Definition is_digit (c : ascii) : bool := in_range 48 57 c.
Definition is_upper (c : ascii) : bool := in_range 65 90 c.

(** Line boundaries of [str.splitlines]: LF, VT, FF, CR, FS, GS, RS, NEL. *)
Definition is_linebreak (c : ascii) : bool :=
  in_range 10 13 c || in_range 28 30 c || (code c =? 133)%nat.

(** Whitespace removed by [str.strip()]: the boundaries above, TAB, US,
    the space and the no-break space. *)
Definition is_space (c : ascii) : bool :=
  in_range 9 13 c || in_range 28 32 c || (code c =? 133)%nat || (code c =? 160)%nat.

Definition LF : ascii := ascii_of_nat 10.
Definition CR : ascii := ascii_of_nat 13.

Definition nonempty (s : string) : bool :=
  match s with
  | EmptyString => false
  | String _ _ => true
  end.

Fixpoint string_forallb (p : ascii -> bool) (s : string) : bool :=
  match s with
  | EmptyString => true
  | String c r => p c && string_forallb p r
  end.

Fixpoint string_existsb (p : ascii -> bool) (s : string) : bool :=
  match s with
  | EmptyString => false
  | String c r => p c || string_existsb p r
  end.

(** [s.splitlines()]: the lines of [s] without their boundaries; CR LF is
    one boundary, and a boundary at the very end opens no further line. *)
Fixpoint splitlines (s : string) : list string :=
  match s with
  | EmptyString => []
  | String c r =>
      if is_linebreak c then
        match r with
        | String c' r' =>
            if Ascii.eqb c CR && Ascii.eqb c' LF
            then EmptyString :: splitlines r'
            else EmptyString :: splitlines r
        | EmptyString => [EmptyString]
        end
      else
        match splitlines r with
        | [] => [String c EmptyString]
        | l :: ls => String c l :: ls
        end
  end.

(** A single line: a str without any line boundary. *)
Definition no_linebreak (s : string) : bool :=
  negb (string_existsb is_linebreak s).

(** The str that holds one line feed. *)
Definition NL : string := String LF EmptyString.

(** [s.split(sep, 1)]: the whole of [s] when [sep] does not occur, else the
    text before and the text after the first [sep]. *)
Fixpoint split_once (sep : ascii) (s : string) : string * option string :=
  match s with
  | EmptyString => (EmptyString, None)
  | String c r =>
      if Ascii.eqb c sep then (EmptyString, Some r)
      else let '(a, b) := split_once sep r in (String c a, b)
  end.

(** [s.rsplit(sep, 1)] unpacked into two names: [None] stands for the
    [ValueError] of the unpacking when [sep] does not occur. *)
Fixpoint rsplit_once (sep : ascii) (s : string) : option (string * string) :=
  match s with
  | EmptyString => None
  | String c r =>
      match rsplit_once sep r with
      | Some (a, b) => Some (String c a, b)
      | None => if Ascii.eqb c sep then Some (EmptyString, r) else None
      end
  end.

Fixpoint lstrip (s : string) : string :=
  match s with
  | EmptyString => EmptyString
  | String c r => if is_space c then lstrip r else s
  end.

Fixpoint rstrip (s : string) : string :=
  match s with
  | EmptyString => EmptyString
  | String c r =>
      let r' := rstrip r in
      if is_space c && negb (nonempty r') then EmptyString else String c r'
  end.

(** [s.strip()] *)
Definition strip (s : string) : string := rstrip (lstrip s).

(** [sep.join(parts)] *)
Fixpoint join (sep : string) (parts : list string) : string :=
  match parts with
  | [] => EmptyString
  | [p] => p
  | p :: ps => p +:+ sep +:+ join sep ps
  end.

(** [dict(pairs)] and dict comprehensions: bindings are stored from left to
    right, a later one replacing an earlier one under the same key. *)
Definition dict_of_pairs {V : Type} (pairs : list (string * V)) : gmap string V :=
  fold_left (fun d kv => <[kv.1 := kv.2]> d) pairs ∅.

(** [d.setdefault(key, value)]: a key that is present keeps its value. *)
Definition setdefault {V : Type} (key : string) (value : V) (d : gmap string V)
    : gmap string V :=
  match d !! key with
  | Some _ => d
  | None => <[key := value]> d
  end.

(** The truth value of an object, as [not] and [if] take it. *)
Definition truthy (v : pyval) : bool :=
  match v with
  | VNone => false
  | VBool b => b
  | VInt z => negb (Z.eqb z 0)
  | VStr s => nonempty s
  | VList l => match l with [] => false | _ => true end
  | VObj _ => true
  end.

(** [c.lower()] on one code point below 256: the capitals of ASCII and of
    Latin-1 move up by 32, and every other code point stays. Beyond this
    alphabet [lower] is not one code point for one code point (the capital
    I with a dot above becomes two code points), so nothing below speaks of
    the length of a lowered str. *)
Definition lower_char (c : ascii) : ascii :=
  if is_upper c || in_range 192 214 c || in_range 216 222 c
  then ascii_of_nat (code c + 32)
  else c.

(** [s.lower()] *)
Fixpoint lower (s : string) : string :=
  match s with
  | EmptyString => EmptyString
  | String c r => String (lower_char c) (lower r)
  end.

(** ** Regular expressions

    Both patterns of the module end in [$], which [re] satisfies at the end of
    the string and also just before a line feed that is the last character. *)

(** [s] without its last character when that is a line feed. *)
Fixpoint before_final_LF (s : string) : option string :=
  match s with
  | EmptyString => None
  | String c EmptyString => if Ascii.eqb c LF then Some EmptyString else None
  | String c r => String c <$> before_final_LF r
  end.

(** [^ body $] for a [body] given by its full-match predicate. *)
Definition anchored (fullmatch : string -> bool) (s : string) : bool :=
  fullmatch s ||
  match before_final_LF s with
  | Some s' => fullmatch s'
  | None => false
  end.

(** The class [\w] of a str pattern on code points below 256: ASCII letters
    and digits, the underscore, and the letters and numerals of Latin-1. *)
Definition is_word (c : ascii) : bool :=
  is_lower c || is_upper c || is_digit c || (code c =? 95)%nat
  || (code c =? 170)%nat || in_range 178 179 c || (code c =? 181)%nat
  || in_range 185 186 c || in_range 188 190 c
  || in_range 192 214 c || in_range 216 246 c || in_range 248 255 c.

Definition DOT : ascii := ascii_of_nat 46.

(** ** FormType *)

Module FormType.

(** An instance is a dict (content_editor's [Type] derives from [dict]) with
    an instance [__dict__] of its own. *)
Record t : Type := {
  items : gmap string pyval;
  __dict__ : gmap string pyval
}.

(** The body [\w+\.([\w\.]+)+]: the dot it requires after [\w+] is the first
    dot of the string, since [\w] excludes the dot; what follows is a
    non-empty run of word characters and dots. *)
Definition dotted_fullmatch (s : string) : bool :=
  match split_once DOT s with
  | (a, Some b) =>
      nonempty a && string_forallb is_word a
      && nonempty b && string_forallb (fun c => is_word c || Ascii.eqb c DOT) b
  | (_, None) => false
  end.

(** [re.match(r"^\w+\.([\w\.]+)+$", value)] *)
Definition re_match_dotted (value : string) : bool := anchored dotted_fullmatch value.

(** Django's [import_string] over the importable modules, each with its
    namespace: the path is split at its last dot; a path without a dot and a
    module without the attribute both end in [ImportError], a module that
    cannot be found in [ModuleNotFoundError]. Importing a module is taken
    to run no code that raises by itself. *)
Definition import_string (modules : gmap string (gmap string pyval))
    (dotted_path : string) : result pyval :=
  match rsplit_once DOT dotted_path with
  | None => Raise ImportError
  | Some (module_path, class_name) =>
      match modules !! module_path with
      | None => Raise ModuleNotFoundError
      | Some namespace =>
          match namespace !! class_name with
          | None => Raise ImportError
          | Some v => Ok v
          end
      end
  end.

(** [with contextlib.suppress(ModuleNotFoundError): value = body]: [value]
    keeps its old binding when [body] raises that very exception; its base
    class [ImportError] is not suppressed. *)
Definition suppress_ModuleNotFoundError (body : result pyval) (value : pyval) : result pyval :=
  match body with
  | Ok v => Ok v
  | Raise ModuleNotFoundError => Ok value
  | Raise e => Raise e
  end.

(** content_editor's [Type.__getattr__]: the item under that key, or
    [AttributeError]. *)
Definition Type___getattr__ (self : t) (attr : string) : result pyval :=
  match items self !! attr with
  | Some v => Ok v
  | None => Raise AttributeError
  end.

Definition setattr (self : t) (attr : string) (value : pyval) : t :=
  {| items := items self; __dict__ := <[attr := value]> (__dict__ self) |}.

(** What a call leaves behind: its outcome, the instance afterwards, and the
    dotted paths handed to [import_string], in order. *)
Definition outcome : Type := result pyval * t * list string.

Definition __getattr__ (modules : gmap string (gmap string pyval))
    (self : t) (attr : string) : outcome :=
  match Type___getattr__ self attr with
  | Raise e => (Raise e, self, [])
  | Ok value =>
      let '(resolved, imports) :=
        match as_str value with
        | Some s =>
            if re_match_dotted s
            then (suppress_ModuleNotFoundError (import_string modules s) value, [s])
            else (Ok value, [])
        | None => (Ok value, [])
        end in
      match resolved with
      | Raise e => (Raise e, self, imports)
      | Ok value' => (Ok value', setattr self attr value', imports)
      end
  end.

(** The expression [self.attr]: the instance [__dict__] first, then the names
    the class itself defines ([class_attr]: the methods of [dict],
    [_REQUIRED]), and [__getattr__] only when both lack the name. *)
Definition getattr (modules : gmap string (gmap string pyval))
    (class_attr : string -> option pyval) (self : t) (attr : string) : outcome :=
  match __dict__ self !! attr with
  | Some v => (Ok v, self, [])
  | None =>
      match class_attr attr with
      | Some v => (Ok v, self, [])
      | None => __getattr__ modules self attr
      end
  end.

(** [self[key]] *)
Definition getitem (self : t) (key : string) : result pyval :=
  match items self !! key with
  | Some v => Ok v
  | None => Raise KeyError
  end.

Definition _REQUIRED : list string :=
  ["key"; "label"; "regions"; "form_class"; "validate"].

(** The constructor, called with keyword arguments: the two defaults are filled in, then
    content_editor's [Type.__init__] raises [TypeError] when a name of
    [_REQUIRED] is missing and stores the keyword arguments as the items
    otherwise. [forms_Form] is the class [django.forms.Form] and
    [default_validate] the function that returns the empty list. *)
Definition __init__ (forms_Form default_validate : pyval)
    (kwargs : gmap string pyval) : result t :=
  let kwargs := setdefault "form_class" forms_Form kwargs in
  let kwargs := setdefault "validate" default_validate kwargs in
  if bool_decide (Forall (fun k => is_Some (kwargs !! k)) _REQUIRED)
  then Ok {| items := kwargs; __dict__ := ∅ |}
  else Raise TypeError.

End FormType.

(** ** NameField *)

Module NameField.

Definition RANDOM_STRING_CHARS : string := "abcdefghijklmnopqrstuvwxyz0123456789".

(** [secrets.choice(allowed_chars)] on the outcome [r] of one random draw. *)
Definition choice (allowed_chars : string) (r : nat) : ascii :=
  default LF (String.get (r mod String.length allowed_chars) allowed_chars).

(** Django's [get_random_string]: [length] independent choices; [draws i] is
    the outcome of the [i]-th draw. *)
Definition get_random_string (length : nat) (allowed_chars : string)
    (draws : nat -> nat) : string :=
  string_of_list_ascii (map (fun i => choice allowed_chars (draws i)) (seq 0 length)).

(** [to_python] receives [None] or a str, the two kinds of value
    [CharField.to_python] hands on as they are. *)
Definition to_python (value : option string) (draws : nat -> nat) : string :=
  match value with
  | None | Some EmptyString =>
      "field_" +:+ get_random_string 10 RANDOM_STRING_CHARS draws
  | Some s => s
  end.

(** The character class [[a-z0-9_]]. *)
Definition is_name_char (c : ascii) : bool :=
  is_lower c || is_digit c || (code c =? 95)%nat.

(** The body [[a-z0-9_]+]. *)
Definition name_fullmatch (s : string) : bool :=
  nonempty s && string_forallb is_name_char s.

Definition message : string :=
  "Enter a value consisting only of lowercase letters, numbers and the underscore.".

(** The field's [RegexValidator(r"^[a-z0-9_]+$")]: it raises unless
    [regex.search(value)] finds a match. *)
Definition validator (value : string) : result unit :=
  if anchored name_fullmatch value then Ok tt
  else Raise (ValidationError None message).

End NameField.

(** ** FormFieldBase *)

Module FormFieldBase.

(** A row of a plugin table, as far as the base class knows it. *)
Record t : Type := {
  name : string;
  label_lower : string
}.

Definition get_fields (self : t) (kwargs : gmap string pyval) : result (gmap string pyval) :=
  Raise (NotImplementedError (label_lower self +:+ " needs a get_fields implementation")).

Definition get_initial (self : t) : gmap string pyval := ∅.

Definition get_cleaners (self : t) : list pyval := [].

Definition get_loaders (self : t) : result (list pyval) :=
  Raise (NotImplementedError (label_lower self +:+ " needs a get_loaders implementation")).

(** A concrete plugin type: the methods of the contract it defines itself. *)
Record subclass : Type := {
  own_get_fields : option (t -> gmap string pyval -> result (gmap string pyval));
  own_get_initial : option (t -> gmap string pyval);
  own_get_cleaners : option (t -> list pyval);
  own_get_loaders : option (t -> result (list pyval))
}.

(** Method lookup on a row of type [cls]: the type's own method, else the
    one inherited from [FormFieldBase]. *)
Definition call_get_fields (cls : subclass) (self : t) (kwargs : gmap string pyval) :=
  default get_fields (own_get_fields cls) self kwargs.
Definition call_get_initial (cls : subclass) (self : t) :=
  default get_initial (own_get_initial cls) self.
Definition call_get_cleaners (cls : subclass) (self : t) :=
  default get_cleaners (own_get_cleaners cls) self.
Definition call_get_loaders (cls : subclass) (self : t) :=
  default get_loaders (own_get_loaders cls) self.

(** The class a [class_prepared] signal announces, as far as
    [set_field_type] looks at it: [type] is the class attribute of that
    name, if any. *)
Record sender : Type := {
  is_subclass : bool;
  abstract : bool;
  __name__ : string;
  type : option string
}.

Definition set_field_type (cls : sender) : sender :=
  if is_subclass cls && negb (abstract cls)
  then {| is_subclass := is_subclass cls; abstract := abstract cls;
          __name__ := __name__ cls; type := Some (lower (__name__ cls)) |}
  else cls.

End FormFieldBase.

(** ** ConfiguredForm *)

Module ConfiguredForm.

Record t : Type := {
  pk : Z;
  name : string;
  form_type : string
}.

(** *** Class preparation and [regions] *)

(** The class handed to [fill_form_choices] by the [class_prepared] signal. *)
Record sender : Type := {
  is_ConfiguredForm : bool;
  abstract : bool;
  FORMS : list FormType.t
}.

(** What preparation attaches to a concrete class: the choices of the
    [form_type] field and the dict [types] behind the [type] property. The
    dict is kept as the sequence of its insertions. *)
Record prepared : Type := {
  form_type_choices : list (pyval * pyval);
  types : list (pyval * FormType.t)
}.

(** [types.get(key)] for a str [key]: the value stored last under a key
    equal to it, and only the same str is equal to a str. *)
Definition types_get (types : list (pyval * FormType.t)) (key : string) : option FormType.t :=
  snd <$> last (filter (fun kv => as_str kv.1 = Some key) types).

Section Preparation.

Variable modules : gmap string (gmap string pyval).
Variable class_attr : string -> option pyval.

(** [callable(obj)] and the call [obj(configured_form)]. *)
Variable callable : pyval -> bool.
Variable call : pyval -> t -> result pyval.

(** [[(row["key"], row["label"]) for row in sender.FORMS]] *)
Fixpoint choices_of (forms : list FormType.t) : result (list (pyval * pyval)) :=
  match forms with
  | [] => Ok []
  | row :: rest =>
      key ← FormType.getitem row "key";
      label ← FormType.getitem row "label";
      more ← choices_of rest;
      Ok ((key, label) :: more)
  end.

(** [{type.key: type for type in sender.FORMS}]: every [type.key] is an
    attribute access on the FormType, which keeps what it cached; a key
    that cannot be hashed is a [TypeError]. *)
Fixpoint types_of (forms : list FormType.t) : result (list (pyval * FormType.t)) :=
  match forms with
  | [] => Ok []
  | type :: rest =>
      let '(key, type', _) := FormType.getattr modules class_attr type "key" in
      key ← key;
      if hashable key then
        more ← types_of rest;
        Ok ((key, type') :: more)
      else Raise TypeError
  end.

(** [None] when the guard fails and the class is left as it was. *)
Definition fill_form_choices (cls : sender) : result (option prepared) :=
  if is_ConfiguredForm cls && negb (abstract cls) then
    choices ← choices_of (FORMS cls);
    types ← types_of (FORMS cls);
    Ok (Some {| form_type_choices := choices; types := types |})
  else Ok None.

(** [self.type.regions]: a class that was not prepared has no [type]; on a
    prepared one the property returns [types.get(self.form_type)], and
    [None] has no attribute [regions]. *)
Definition type_regions (cls : option prepared) (self : t) : result pyval :=
  match cls with
  | None => Raise AttributeError
  | Some p =>
      match types_get (types p) (form_type self) with
      | None => Raise AttributeError
      | Some type => (FormType.getattr modules class_attr type "regions").1.1
      end
  end.

(** The property [regions]. The FormType keeps the value of [regions] it
    resolved; what the property returns is all that is followed here. *)
Definition regions (cls : option prepared) (self : t) : result pyval :=
  match type_regions cls self with
  | Raise AttributeError | Raise KeyError => Ok (VList [])
  | Raise e => Raise e
  | Ok regions => if callable regions then call regions self else Ok regions
  end.

End Preparation.

(** *** The union query *)

Inductive output_field : Type := TextField | BooleanField.

(** The expressions handed to [annotate]. *)
Inductive expression : Type :=
  | F (name : string)
  | Value (value : pyval) (field : output_field).

(** A plugin class with its table. [fields] are the names
    [plugin._meta.get_field] accepts, [class_attrs] what [getattr] finds on
    the class under other names, [ordering] the default ordering of the
    model ([Meta.ordering]); the rows of [table] map field names to values,
    in the order a query on the model yields them. *)
Record plugin : Type := {
  is_FormFieldBase : bool;
  fields : list string;
  class_attrs : gmap string pyval;
  ordering : list string;
  table : list (gmap string pyval)
}.

Definition FIELD_DEFAULTS : gmap string (pyval * output_field) :=
  <["is_collapsible" := (VBool false, BooleanField)]>
  (<["is_collapse_below" := (VBool false, BooleanField)]>
  (<["is_collapsed_by_default" := (VBool false, BooleanField)]> ∅)).

(** The alias of the attribute at position [index], in decimal. *)
Definition alias (index : nat) : string := "__val_" +:+ pretty index.

(** [columns]: the pairs [(alias, attribute)] of the first loop. *)
Definition columns_of (attributes : list string) : list (string * string) :=
  imap (fun index attribute => (alias index, attribute)) attributes.

(** The body of the [try] statement for one attribute of one plugin. *)
Definition annotation (p : plugin) (attribute : string) : expression :=
  if bool_decide (attribute ∈ fields p) then F attribute
  else
    let value := default VNone (class_attrs p !! attribute) in
    if is_not_None value then Value value TextField
    else
      let '(dflt, field_type) :=
        default (VStr "", TextField) (FIELD_DEFAULTS !! attribute) in
      Value dflt field_type.

(** The dict [annotations] after the inner loop. *)
Definition annotations_of (p : plugin) (columns : list (string * string))
    : gmap string expression :=
  fold_left (fun d column => <[column.1 := annotation p column.2]> d) columns ∅.

(** What one name of [values_list] selects: the annotation under that name,
    else the field of that name. *)
Definition expression_of (annotations : gmap string expression) (name : string)
    : expression :=
  default (F name) (annotations !! name).

(** The condition [parent=self] on a row: its foreign key is the primary
    key of [self]. *)
Definition parent_is (self : t) (row : gmap string pyval) : bool :=
  match row !! "parent" with
  | Some (VInt z) => Z.eqb z (pk self)
  | _ => false
  end.

(** [plugin.objects.filter(parent=self)] *)
Definition filter_parent (p : plugin) (self : t) : list (gmap string pyval) :=
  filter (fun row => parent_is self row = true) (table p).

(** One operand of a query: the model it reads, the form whose rows it
    keeps, and the expressions it selects, one for each column. *)
Record operand : Type := {
  model : plugin;
  parent : t;
  selected : list expression
}.

(** A queryset is lazy: building one runs nothing. It is kept as the
    operands of the statement it stands for, one operand for a plain
    query, several for a union. *)
Definition queryset : Type := list operand.

(** The queryset annotated with [annotations], then [values_list] over
    [values]. *)
Definition values_list (p : plugin) (self : t) (columns : list (string * string))
    (values : list string) : queryset :=
  [ {| model := p; parent := self;
       selected := map (expression_of (annotations_of p columns)) values |} ].

(** The loop over [plugins]. *)
Fixpoint querysets_of (self : t) (columns : list (string * string))
    (values : list string) (plugins : list plugin) : list queryset :=
  match plugins with
  | [] => []
  | p :: rest =>
      if negb (is_FormFieldBase p) then querysets_of self columns values rest
      else values_list p self columns values :: querysets_of self columns values rest
  end.

(** [p.union(q, all=True)]: the operands of [p], then those of [q]. *)
Definition union_all (p q : queryset) : queryset := (p ++ q)%list.

(** [reduce(lambda p, q: p.union(q, all=True), querysets[1:], querysets[0])] *)
Definition reduce_union (querysets : list queryset) : result queryset :=
  match querysets with
  | [] => Raise IndexError
  | first :: others => Ok (foldl union_all first others)
  end.

(** The storage that runs the statements. What it does is not decided by
    the module and differs from one database to the next, so it is a
    parameter:
    - [refuses_operands] tells whether a compound statement over these
      models is refused as a whole (SQLite refuses one with an operand that
      is ordered, as an operand with a default ordering is);
    - [refuses_column] tells whether one column of a compound statement is
      refused for the expressions the operands select in it (a database
      with typed columns refuses to combine a text with a number);
    - [fetch first own row] is the value handed back for the expression
      [own] on [row], read through the column of the first operand, whose
      expression [first] decides the conversion on the way back. A literal
      of a [TextField] is sent as the str of its value. *)
Record backend : Type := {
  refuses_operands : list plugin -> bool;
  refuses_column : list (plugin * expression) -> bool;
  fetch : plugin * expression -> plugin * expression -> gmap string pyval -> pyval
}.

(** The rows of one operand, each cell read through the column of the
    first operand. *)
Definition rows_of (b : backend) (first op : operand) : list (list pyval) :=
  map (fun row =>
         map (fun ee : expression * expression =>
                fetch b (model first, ee.1) (model op, ee.2) row)
             (zip (selected first) (selected op)))
      (filter_parent (model op) (parent op)).

(** What the operands select in column [i]. *)
Definition column_of (qs : queryset) (i : nat) : list (plugin * expression) :=
  omap (fun op => (fun e => (model op, e)) <$> selected op !! i) qs.

(** Iterating over a queryset runs its statement. A plain query returns
    its rows. A union returns the rows of its operands one operand after
    the other, unless the storage refuses the statement: for operands that
    select different numbers of columns, for the operands as a whole, or
    for one of the columns. *)
Definition execute (b : backend) (qs : queryset) : result (list (list pyval)) :=
  match qs with
  | [] => Ok []
  | [op] => Ok (rows_of b op op)
  | first :: _ =>
      if negb (forallb (fun op => length (selected op) =? length (selected first))%nat qs)
         || refuses_operands b (map model qs)
         || existsb (fun i => refuses_column b (column_of qs i))
                    (seq 0 (length (selected first)))
      then Raise DatabaseError
      else Ok (concat (map (rows_of b first) qs))
  end.

(** The closing comprehension, for one row. *)
Definition row_to_pair (columns : list (string * string)) (row : list pyval)
    : pyval * gmap string pyval :=
  (row !!! 0%nat,
   dict_of_pairs (map (fun cv : (string * string) * pyval => (cv.1.2, cv.2))
                      (zip columns (drop 1 row)))).

(** [attributes] is the list [attributes or []]: the empty list stands for
    an argument left out. *)
Definition get_formfields_union (b : backend) (self : t) (plugins : list plugin)
    (attributes : list string) : result (list (pyval * gmap string pyval)) :=
  let columns := columns_of attributes in
  let values := "name" :: map fst columns in
  let querysets := querysets_of self columns values plugins in
  qs ← reduce_union querysets;
  rows ← execute b qs;
  Ok (map (row_to_pair columns) rows).

(** *** The result written out *)

(** The pair returned for [row] of plugin [p] when [first] is the plugin of
    the first operand: the name, and under every attribute the value of
    its annotation, each as the storage hands it back. *)
Definition output_pair (b : backend) (first : plugin) (attributes : list string)
    (p : plugin) (row : gmap string pyval) : pyval * gmap string pyval :=
  (fetch b (first, F "name") (p, F "name") row,
   dict_of_pairs
     (map (fun a => (a, fetch b (first, annotation first a) (p, annotation p a) row))
          attributes)).

(** The operand the loop builds for plugin [p], written out. *)
Definition operand_of (self : t) (attributes : list string) (p : plugin) : operand :=
  {| model := p; parent := self;
     selected := F "name" :: map (annotation p) attributes |}.

(** Whether the storage refuses the union over the plugins [ps]: never for
    fewer than two, for which no union is built. *)
Definition refused (b : backend) (ps : list plugin) (attributes : list string) : bool :=
  match ps with
  | [] | [_] => false
  | _ =>
      refuses_operands b ps
      || refuses_column b (map (fun p => (p, F "name")) ps)
      || existsb (fun a => refuses_column b (map (fun p => (p, annotation p a)) ps))
                 attributes
  end.

(** *** The resolution order in the words of the specification

    The definitions below restate what the specification says is
    projected for an attribute; the theorems compare them with the
    annotations the query builds. *)

(** The documented defaults: false for the three layout hints, the empty
    str for any other attribute. *)
Definition documented_default (attribute : string) : pyval :=
  if bool_decide (attribute ∈ ["is_collapsible"; "is_collapse_below";
                               "is_collapsed_by_default"])
  then VBool false
  else VStr "".

(** The output field of the default: a boolean one for the three layout
    hints, a text one for any other attribute. *)
Definition documented_field (attribute : string) : output_field :=
  if bool_decide (attribute ∈ ["is_collapsible"; "is_collapse_below";
                               "is_collapsed_by_default"])
  then BooleanField
  else TextField.

(** A column of the plugin is projected as it is; otherwise a class
    attribute that is not [None] is injected as a literal; otherwise the
    documented default is. *)
Definition resolved_expression (p : plugin) (attribute : string) : expression :=
  if bool_decide (attribute ∈ fields p) then F attribute
  else
    match class_attrs p !! attribute with
    | Some VNone | None =>
        Value (documented_default attribute) (documented_field attribute)
    | Some v => Value v TextField
    end.

End ConfiguredForm.

(** ** Form fields

    What the module takes from [django.forms] and [django_select2]: the
    field classes it instantiates and the widgets it hands to them. A field
    is kept as the call that builds it, the class with its keyword
    arguments; a widget class and an instance of it without arguments are
    the same widget. *)

Module forms.

Inductive field_class : Type :=
  | CharField
  | EmailField
  | URLField
  | DateField
  | IntegerField
  | BooleanField
  | ChoiceField
  | MultipleChoiceField.

(** [CharField.widget] is [TextInput], [EmailField.widget] is [EmailInput],
    [URLField.widget] is [URLInput], [IntegerField.widget] is
    [NumberInput]. *)
Inductive widget : Type :=
  | TextInput (attrs : gmap string pyval)
  | EmailInput (attrs : gmap string pyval)
  | URLInput (attrs : gmap string pyval)
  | DateInput (attrs : gmap string pyval)
  | NumberInput (attrs : gmap string pyval)
  | Textarea (attrs : gmap string pyval)
  | Select2Widget (attrs : gmap string pyval)
  | CheckboxInput
  | RadioSelect
  | SelectMultiple
  | CheckboxSelectMultiple
  | HiddenInput
  | MultipleHiddenInput.

(** A keyword argument of a field: a plain value, a widget, or a list of
    choices. *)
Inductive argument : Type :=
  | Arg (v : pyval)
  | WidgetArg (w : widget)
  | ChoicesArg (choices : list (string * string)).

Record field : Type := {
  form_class : field_class;
  kwargs : gmap string argument
}.

(** [BLANK_CHOICE_DASH] of [django.db.models.fields]. *)
Definition BLANK_CHOICE_DASH : list (string * string) := [("", "---------")].

End forms.

(** ** simple_loader *)

(** [data.get(name)] is [None] when [data] has no such key. *)
Definition simple_loader (data : gmap string pyval) (name label : string)
    : gmap string pyval :=
  <["name" := VStr name]>
  (<["label" := VStr label]>
  (<["value" := default VNone (data !! name)]> ∅)).

(** ** FormField.should_show_field *)

Module FormField.

Record t : Type := {
  name : string;
  label : string;
  is_required : bool;
  help_text : string;
  is_table_visible : bool;
  is_modal_visible : bool;
  is_card_visible : bool;
  is_modal_detail_visible : bool;
  is_visible : bool;
  is_editable : bool;
  is_required_to_move : bool;
  use_script : bool;
  execute_on_first_save : bool;
  execute_on_every_save : bool;
  python_script : option string;
  validation_python_script : option string
}.

Definition should_show_field (self : t) (is_update : bool) : bool :=
  if negb (is_visible self) then false
  else if is_editable self then true
  else negb is_update.

(** [get_field(form_class=..., should_show=..., **kwargs)] *)
Definition get_field (self : t) (form_class : forms.field_class)
    (should_show : bool) (kwargs : gmap string forms.argument)
    : gmap string forms.field :=
  let is_required := if should_show then is_required self else false in
  let kwargs := setdefault "label" (forms.Arg (VStr (label self))) kwargs in
  let kwargs := setdefault "required" (forms.Arg (VBool is_required)) kwargs in
  let kwargs := setdefault "help_text" (forms.Arg (VStr (help_text self))) kwargs in
  {[ name self := {| forms.form_class := form_class; forms.kwargs := kwargs |} ]}.

(** [[partial(simple_loader, label=self.label, name=self.name)]]: each
    loader is a function of the data. *)
Definition get_loaders (self : t) : list (gmap string pyval -> gmap string pyval) :=
  [fun data => simple_loader data (name self) (label self)].

End FormField.

(** ** SimpleFieldBase: choices and the default value *)

Module SimpleFieldBase.

Record t : Type := {
  base : FormField.t;
  type : string;
  choices : string;
  placeholder : string;
  default_value : string;
  max_length : option N
}.

Definition PIPE : ascii := ascii_of_nat 124.

(** The inner function of [get_choices]. *)
Definition _choice (value : string) : string * string :=
  match split_once PIPE value with
  | (_, None) => (value, value)
  | (a, Some b) => (strip a, strip b)
  end.

Definition get_choices (self : t) : list (string * string) :=
  map _choice (filter (fun value => nonempty value = true) (splitlines (choices self))).

(** The condition of the default-value check as the specification words
    it: both texts are set and the default is not among the parsed choice
    values. *)
Definition default_refused (self : t) : Prop :=
  choices self <> EmptyString
  /\ default_value self <> EmptyString
  /\ default_value self ∉ (get_choices self).*1.

Definition QUOTE : string := String (ascii_of_nat 34) EmptyString.

(** The message of [clean_fields] with [default] filled in. *)
Definition default_value_message (default : string) : string :=
  "The specified default value " +:+ QUOTE +:+ default +:+ QUOTE
  +:+ " isn't part of the available choices.".

(** feincms3's [validation_error]: the error is attached to [field] unless
    [field] is among the fields excluded from validation, in which case it
    is attached to no field. *)
Definition validation_error (error field : string) (exclude : list string) : exn :=
  if bool_decide (field ∈ exclude) then ValidationError None error
  else ValidationError (Some field) error.

Section Cleaning.

(** [super().clean_fields(exclude)], Django's cleaning of every field that
    is not excluded; it leaves str values of [choices] and [default_value]
    as they are. *)
Variable super_clean_fields : t -> list string -> result unit.

(** [exclude] is the collection of field names [full_clean] passes on. *)
Definition clean_fields (self : t) (exclude : list string) : result unit :=
  _ ← super_clean_fields self exclude;
  if nonempty (choices self)
     && nonempty (default_value self)
     && bool_decide (dict_of_pairs (get_choices self) !! default_value self = None)
  then Raise (validation_error (default_value_message (default_value self))
                               "default_value" exclude)
  else Ok tt.

End Cleaning.

(** *** Initial value, saving and proxies *)

(** Both branches on [choices] return the same mapping. *)
Definition get_initial (self : t) : gmap string pyval :=
  if negb (nonempty (default_value self)) then ∅
  else if nonempty (choices self)
       then {[ FormField.name (base self) := VStr (default_value self) ]}
       else {[ FormField.name (base self) := VStr (default_value self) ]}.

(** The values of the enumeration [Type]. *)
Definition TEXT : string := "text".
Definition EMAIL : string := "email".
Definition URL : string := "url".
Definition DATE : string := "date".
Definition INTEGER : string := "integer".
Definition TEXTAREA : string := "textarea".
Definition CHECKBOX : string := "checkbox".
Definition SELECT : string := "select".
Definition RADIO : string := "radio".
Definition SELECT_MULTIPLE : string := "select-multiple".
Definition CHECKBOX_SELECT_MULTIPLE : string := "checkbox-select-multiple".

Definition Type_values : list string :=
  [TEXT; EMAIL; URL; DATE; INTEGER; TEXTAREA; CHECKBOX; SELECT; RADIO;
   SELECT_MULTIPLE; CHECKBOX_SELECT_MULTIPLE].

(** A model class below [SimpleFieldBase], as far as [proxy] and [save]
    look at it: its qualified name, the options of its [Meta] and the
    class attribute [TYPE], if it has one. *)
Record class : Type := {
  __qualname__ : string;
  app_label : string;
  Meta : gmap string pyval;
  TYPE : option string
}.

(** [save]: a row of a class with [TYPE] takes that as its [type] before it
    is written; the row as written is what is returned. *)
Definition save (cls : class) (self : t) : t :=
  match TYPE cls with
  | Some type_name =>
      {| base := base self; type := type_name; choices := choices self;
         placeholder := placeholder self; default_value := default_value self;
         max_length := max_length self |}
  | None => self
  end.

(** [proxy(type_name, **meta)]; [type_label] is [type_name.label] when
    [type_name] has that attribute, as the members of [Type] do. *)
Definition proxy (cls : class) (type_name : string) (type_label : option string)
    (meta : gmap string pyval) : class :=
  let meta := <["proxy" := VBool true]> meta in
  let meta := <["app_label" := VStr (app_label cls)]> meta in
  let meta :=
    match meta !! "verbose_name", type_label with
    | None, Some l => <["verbose_name" := VStr l]> meta
    | _, _ => meta
    end in
  {| __qualname__ := __qualname__ cls +:+ "_" +:+ type_name;
     app_label := app_label cls;
     Meta := meta ∪ Meta cls;
     TYPE := Some type_name |}.

(** *** get_fields *)

(** [self.placeholder or False] *)
Definition placeholder_or_False (self : t) : pyval :=
  if nonempty (placeholder self) then VStr (placeholder self) else VBool false.

(** [self.max_length], [None] when it is not set. *)
Definition max_length_value (self : t) : pyval :=
  match max_length self with
  | Some n => VInt (Z.of_N n)
  | None => VNone
  end.

(** [self.max_length or False] *)
Definition max_length_or_False (self : t) : pyval :=
  if truthy (max_length_value self) then max_length_value self else VBool false.

(** The attributes of the select2 widget; the placeholder text is kept in
    its UTF-8 bytes. *)
Definition select2_attrs : gmap string pyval :=
  <["data-minimum-input-length" := VInt 0]>
  (<["data-maximum-input-length" := VInt 1000]>
  (<["data-placeholder" := VStr "Нажмите для выбора"]>
  (<["data-close-on-select" := VStr "true"]>
  (<["data-allow-clear" := VStr "true"]>
  (<["data-language" := VStr "ru"]> ∅))))).

(** What [get_fields] ends in: the mapping it returns, or
    [ImproperlyConfigured] for a [type] it does not handle. *)
Inductive fields_outcome : Type :=
  | Built (fields : gmap string forms.field)
  | ImproperlyConfigured (type : string).

(** The choices of a [SELECT] field: a blank choice comes first unless the
    field is required and has a default value. *)
Definition select_choices (self : t) : list (string * string) :=
  let choices := get_choices self in
  if negb (FormField.is_required (base self)) || negb (nonempty (default_value self))
  then
    let blank_choice :=
      if nonempty (placeholder self) then [("", placeholder self)]
      else forms.BLANK_CHOICE_DASH in
    blank_choice ++ choices
  else choices.

(** [kwargs.pop("is_update", False)], as the truth value
    [should_show_field] takes it for. *)
Definition is_update_of (kwargs : gmap string pyval) : bool :=
  truthy (default (VBool false) (kwargs !! "is_update")).

Definition get_fields (self : t) (kwargs : gmap string pyval) : fields_outcome :=
  let is_update := is_update_of kwargs in
  let should_show := FormField.should_show_field (base self) is_update in
  let get_field form_class kw :=
    Built (FormField.get_field (base self) form_class should_show kw) in
  let shown (w hidden : forms.widget) := if should_show then w else hidden in
  if bool_decide (type self = TEXT) then
    get_field forms.CharField
      (<["max_length" := forms.Arg (max_length_value self)]>
      (<["widget" := forms.WidgetArg
           (shown (forms.TextInput {[ "placeholder" := placeholder_or_False self ]})
                  forms.HiddenInput)]> ∅))
  else if bool_decide (type self = EMAIL) then
    get_field forms.EmailField
      (<["widget" := forms.WidgetArg
           (shown (forms.EmailInput {[ "placeholder" := placeholder_or_False self ]})
                  forms.HiddenInput)]> ∅)
  else if bool_decide (type self = URL) then
    get_field forms.URLField
      (<["widget" := forms.WidgetArg
           (shown (forms.URLInput {[ "placeholder" := placeholder_or_False self ]})
                  forms.HiddenInput)]> ∅)
  else if bool_decide (type self = DATE) then
    get_field forms.DateField
      (<["widget" := forms.WidgetArg
           (shown (forms.DateInput
                     (<["placeholder" := placeholder_or_False self]>
                     (<["type" := VStr "date"]> ∅)))
                  forms.HiddenInput)]> ∅)
  else if bool_decide (type self = INTEGER) then
    get_field forms.IntegerField
      (<["widget" := forms.WidgetArg
           (shown (forms.NumberInput {[ "placeholder" := placeholder_or_False self ]})
                  forms.HiddenInput)]> ∅)
  else if bool_decide (type self = TEXTAREA) then
    get_field forms.CharField
      (<["max_length" := forms.Arg (max_length_value self)]>
      (<["widget" := forms.WidgetArg
           (shown (forms.Textarea
                     (<["maxlength" := max_length_or_False self]>
                     (<["placeholder" := placeholder_or_False self]>
                     (<["rows" := VInt 5]> ∅))))
                  forms.HiddenInput)]> ∅))
  else if bool_decide (type self = CHECKBOX) then
    get_field forms.BooleanField
      (<["widget" := forms.WidgetArg (shown forms.CheckboxInput forms.HiddenInput)]> ∅)
  else if bool_decide (type self = SELECT) then
    get_field forms.ChoiceField
      (<["choices" := forms.ChoicesArg (select_choices self)]>
      (<["widget" := forms.WidgetArg
           (shown (forms.Select2Widget select2_attrs) forms.HiddenInput)]> ∅))
  else if bool_decide (type self = RADIO) then
    get_field forms.ChoiceField
      (<["widget" := forms.WidgetArg (shown forms.RadioSelect forms.HiddenInput)]>
      (<["choices" := forms.ChoicesArg (get_choices self)]> ∅))
  else if bool_decide (type self = SELECT_MULTIPLE) then
    get_field forms.MultipleChoiceField
      (<["choices" := forms.ChoicesArg (get_choices self)]>
      (<["widget" := forms.WidgetArg
           (shown forms.SelectMultiple forms.MultipleHiddenInput)]> ∅))
  else if bool_decide (type self = CHECKBOX_SELECT_MULTIPLE) then
    get_field forms.MultipleChoiceField
      (<["widget" := forms.WidgetArg
           (shown forms.CheckboxSelectMultiple forms.MultipleHiddenInput)]>
      (<["choices" := forms.ChoicesArg (get_choices self)]> ∅))
  else ImproperlyConfigured (type self).

End SimpleFieldBase.

(** ** Sample data

    Rows and classes in the manner of the test application
    ([tests/testapp/models.py]), used to exercise the theorems below. *)

Module Testapp.

Definition field (name label : string) : FormField.t :=
  {| FormField.name := name; FormField.label := label;
     FormField.is_required := true; FormField.help_text := "";
     FormField.is_table_visible := true; FormField.is_modal_visible := true;
     FormField.is_card_visible := false; FormField.is_modal_detail_visible := true;
     FormField.is_visible := true; FormField.is_editable := true;
     FormField.is_required_to_move := false; FormField.use_script := false;
     FormField.execute_on_first_save := false;
     FormField.execute_on_every_save := false;
     FormField.python_script := None;
     FormField.validation_python_script := None |}.

(** A [Select] row with three lines of choices, the middle one empty. *)
Definition select_row (default : string) : SimpleFieldBase.t :=
  {| SimpleFieldBase.base := field "colour" "Colour";
     SimpleFieldBase.type := "select";
     SimpleFieldBase.choices := join NL ["a|Label A"; ""; "solo"];
     SimpleFieldBase.placeholder := "";
     SimpleFieldBase.default_value := default;
     SimpleFieldBase.max_length := None |}.

(** Two field plugins as a project writes them: [FieldsOnly] defines
    [get_fields] and nothing else of the contract, [Bare] defines nothing
    of it. *)
Definition FieldsOnly : FormFieldBase.subclass :=
  {| FormFieldBase.own_get_fields :=
       Some (fun _ _ => Ok {[ "honeypot" := VObj 1 ]});
     FormFieldBase.own_get_initial := None;
     FormFieldBase.own_get_cleaners := None;
     FormFieldBase.own_get_loaders := None |}.

Definition Bare : FormFieldBase.subclass :=
  {| FormFieldBase.own_get_fields := None;
     FormFieldBase.own_get_initial := None;
     FormFieldBase.own_get_cleaners := None;
     FormFieldBase.own_get_loaders := None |}.

Definition plugin_row : FormFieldBase.t :=
  {| FormFieldBase.name := "field_0123456789";
     FormFieldBase.label_lower := "shop.address" |}.

(** The [contact] form type of the test application. *)
Definition contact : FormType.t :=
  {| FormType.items :=
       <["key" := VStr "contact"]>
       (<["label" := VStr "contact form"]>
       (<["regions" := VList [VObj 10]]>
       (<["form_class" := VObj 11]>
       (<["validate" := VStr "testapp.forms.validate_contact_form"]>
       (<["process" := VStr "testapp.forms.process_contact_form"]> ∅)))));
     FormType.__dict__ := ∅ |}.

Definition other_fields : FormType.t :=
  {| FormType.items :=
       <["key" := VStr "other-fields"]>
       (<["label" := VStr "other fields"]>
       (<["regions" := VList []]>
       (<["form_class" := VStr "testapp.forms.OtherFieldsForm"]>
       (<["validate" := VObj 12]> ∅))));
     FormType.__dict__ := ∅ |}.

(** The importable modules: [testapp.forms] with the three names the form
    types refer to. *)
Definition modules : gmap string (gmap string pyval) :=
  {[ "testapp.forms" :=
       <["validate_contact_form" := VObj 20]>
       (<["process_contact_form" := VObj 21]>
       (<["OtherFieldsForm" := VObj 22]> ∅)) ]}.

(** The same module before [validate_contact_form] was written. *)
Definition modules_without_validate : gmap string (gmap string pyval) :=
  {[ "testapp.forms" :=
       <["process_contact_form" := VObj 21]>
       (<["OtherFieldsForm" := VObj 22]> ∅) ]}.

(** No name of the form types is defined on the class. *)
Definition no_class_attr : string -> option pyval := fun _ => None.

Definition ConfiguredForm : ConfiguredForm.sender :=
  {| ConfiguredForm.is_ConfiguredForm := true;
     ConfiguredForm.abstract := false;
     ConfiguredForm.FORMS := [contact; other_fields] |}.

Definition form (form_type : string) : ConfiguredForm.t :=
  {| ConfiguredForm.pk := 1; ConfiguredForm.name := "Contact us";
     ConfiguredForm.form_type := form_type |}.

(** The columns of [SimpleField], the table behind [Text], [Email] and the
    other proxies. *)
Definition SimpleField_fields : list string :=
  ["id"; "parent"; "region"; "ordering"; "name"; "label"; "is_required";
   "help_text"; "is_table_visible"; "is_modal_visible"; "is_card_visible";
   "is_modal_detail_visible"; "is_visible"; "is_editable";
   "is_required_to_move"; "use_script"; "execute_on_first_save";
   "execute_on_every_save"; "python_script"; "validation_python_script";
   "type"; "choices"; "placeholder"; "default_value"; "max_length"].

(** A row of [SimpleField] of type text; of its columns the ones the
    examples read. *)
Definition text_row (parent ordering : Z) (name label : string)
    : gmap string pyval :=
  <["parent" := VInt parent]> (<["ordering" := VInt ordering]>
  (<["name" := VStr name]> (<["label" := VStr label]>
  (<["type" := VStr "text"]> ∅)))).

(** The plugin classes. [Text] is the proxy of the test application: a
    field plugin with the columns of [SimpleField], of its class
    attributes [TYPE], and the ordering of every plugin. [PlainText] and
    [Duration] are plugins of the test application that do not derive from
    [FormFieldBase]. [Address] is not part of the test application: it
    stands for a field plugin with a table of its own, which has no
    [label] column; its class attribute [type] is the one
    [set_field_type] gives the class. *)
Definition Text : ConfiguredForm.plugin :=
  {| ConfiguredForm.is_FormFieldBase := true;
     ConfiguredForm.fields := SimpleField_fields;
     ConfiguredForm.class_attrs := {[ "TYPE" := VStr "text" ]};
     ConfiguredForm.ordering := ["ordering"];
     ConfiguredForm.table :=
       [ text_row 1 10 "first" "First name";
         text_row 2 10 "other" "Other";
         text_row 1 30 "last" "Last name" ] |}.

Definition PlainText : ConfiguredForm.plugin :=
  {| ConfiguredForm.is_FormFieldBase := false;
     ConfiguredForm.fields := ["id"; "parent"; "region"; "ordering"; "text"];
     ConfiguredForm.class_attrs := ∅;
     ConfiguredForm.ordering := ["ordering"];
     ConfiguredForm.table :=
       [ <["parent" := VInt 1]> (<["ordering" := VInt 5]>
         (<["text" := VStr "Welcome"]> ∅)) ] |}.

Definition Duration : ConfiguredForm.plugin :=
  {| ConfiguredForm.is_FormFieldBase := false;
     ConfiguredForm.fields :=
       ["id"; "parent"; "region"; "ordering"; "label_from"; "label_until"; "name"];
     ConfiguredForm.class_attrs := ∅;
     ConfiguredForm.ordering := ["ordering"];
     ConfiguredForm.table :=
       [ <["parent" := VInt 1]> (<["ordering" := VInt 15]>
         (<["name" := VStr "holiday"]> (<["label_from" := VStr "From"]>
         (<["label_until" := VStr "Until"]> ∅)))) ] |}.

Definition Address : ConfiguredForm.plugin :=
  {| ConfiguredForm.is_FormFieldBase := true;
     ConfiguredForm.fields :=
       ["id"; "parent"; "region"; "ordering"; "name"; "street"];
     ConfiguredForm.class_attrs := {[ "type" := VStr "address" ]};
     ConfiguredForm.ordering := ["ordering"];
     ConfiguredForm.table :=
       [ <["parent" := VInt 1]> (<["ordering" := VInt 20]>
         (<["name" := VStr "home"]> (<["street" := VStr "Street"]> ∅))) ] |}.

(** [str(value)] for the values the examples inject. *)
Definition str (value : pyval) : pyval :=
  match value with
  | VNone => VStr "None"
  | VBool true => VStr "True"
  | VBool false => VStr "False"
  | VInt z => VStr (pretty z)
  | other => other
  end.

(** A storage that runs every union. A column is handed back as stored; a
    literal is handed back as it was sent, the literal of a [TextField] as
    the str of its value. *)
Definition storage : ConfiguredForm.backend :=
  {| ConfiguredForm.refuses_operands := fun _ => false;
     ConfiguredForm.refuses_column := fun _ => false;
     ConfiguredForm.fetch := fun _ own row =>
       match own.2 with
       | ConfiguredForm.F name => default VNone (row !! name)
       | ConfiguredForm.Value v ConfiguredForm.TextField => str v
       | ConfiguredForm.Value v ConfiguredForm.BooleanField => v
       end |}.

(** The same storage, except that it refuses, as SQLite does, a union with
    an operand that has an ordering. *)
Definition strict_storage : ConfiguredForm.backend :=
  {| ConfiguredForm.refuses_operands :=
       existsb (fun p => negb (bool_decide (ConfiguredForm.ordering p = [])));
     ConfiguredForm.refuses_column := ConfiguredForm.refuses_column storage;
     ConfiguredForm.fetch := ConfiguredForm.fetch storage |}.

(** The plugins of the test application handed to the union query, of
    which [Text] alone is a field plugin, and the same with [Address]. *)
Definition union_plugins : list ConfiguredForm.plugin :=
  [PlainText; Text; Duration].

Definition mixed_plugins : list ConfiguredForm.plugin :=
  [PlainText; Text; Duration; Address].

(** A column of [Text], a class attribute of [Text], a layout hint and a
    name that [Text] does not know. *)
Definition union_attributes : list string :=
  ["label"; "TYPE"; "is_collapsible"; "css_class"].

(** What the union query returns from [storage] for the form with primary
    key 1, the plugins of the test application and these attributes. *)
Definition union_output : list (pyval * gmap string pyval) :=
  [ (VStr "first",
     <["label" := VStr "First name"]> (<["TYPE" := VStr "text"]>
     (<["is_collapsible" := VBool false]> (<["css_class" := VStr ""]> ∅))));
    (VStr "last",
     <["label" := VStr "Last name"]> (<["TYPE" := VStr "text"]>
     (<["is_collapsible" := VBool false]> (<["css_class" := VStr ""]> ∅)))) ].

(** What it returns with [Address] among the plugins: one more pair, with
    the defaults where [Address] has neither the column nor the class
    attribute. *)
Definition mixed_output : list (pyval * gmap string pyval) :=
  (union_output ++
   [ (VStr "home",
      <["label" := VStr ""]> (<["TYPE" := VStr ""]>
      (<["is_collapsible" := VBool false]> (<["css_class" := VStr ""]> ∅)))) ])%list.

(** The class after [fill_form_choices]. *)
Definition prepared : ConfiguredForm.prepared :=
  {| ConfiguredForm.form_type_choices :=
       [(VStr "contact", VStr "contact form");
        (VStr "other-fields", VStr "other fields")];
     ConfiguredForm.types :=
       [(VStr "contact", FormType.setattr contact "key" (VStr "contact"));
        (VStr "other-fields",
         FormType.setattr other_fields "key" (VStr "other-fields"))] |}.

(** A row for several values that is not visible. *)
Definition hidden_row : SimpleFieldBase.t :=
  {| SimpleFieldBase.base :=
       {| FormField.name := "topics"; FormField.label := "Topics";
          FormField.is_required := true; FormField.help_text := "";
          FormField.is_table_visible := true; FormField.is_modal_visible := true;
          FormField.is_card_visible := false;
          FormField.is_modal_detail_visible := true;
          FormField.is_visible := false; FormField.is_editable := true;
          FormField.is_required_to_move := false; FormField.use_script := false;
          FormField.execute_on_first_save := false;
          FormField.execute_on_every_save := false;
          FormField.python_script := None;
          FormField.validation_python_script := None |};
     SimpleFieldBase.type := "select-multiple";
     SimpleFieldBase.choices := join NL ["news"; "offers"];
     SimpleFieldBase.placeholder := "";
     SimpleFieldBase.default_value := "";
     SimpleFieldBase.max_length := None |}.

(** The mapping [get_fields] returned, empty when it returned none. *)
Definition built (o : SimpleFieldBase.fields_outcome) : gmap string forms.field :=
  match o with
  | SimpleFieldBase.Built fields => fields
  | SimpleFieldBase.ImproperlyConfigured _ => ∅
  end.

(** The only field of a mapping [get_fields] returned for a row. *)
Definition field_of (self : SimpleFieldBase.t) (kwargs : gmap string pyval)
    : forms.field :=
  default {| forms.form_class := forms.CharField; forms.kwargs := ∅ |}
    (built (SimpleFieldBase.get_fields self kwargs)
     !! FormField.name (SimpleFieldBase.base self)).

(** The model class [SimpleField] of the test application. *)
Definition SimpleField : SimpleFieldBase.class :=
  {| SimpleFieldBase.__qualname__ := "SimpleField";
     SimpleFieldBase.app_label := "testapp";
     SimpleFieldBase.Meta := ∅;
     SimpleFieldBase.TYPE := None |}.

(** [Duration.get_fields]: two date fields, named after the row. *)
Definition Duration_date_field (label : string) : forms.field :=
  {| forms.form_class := forms.DateField;
     forms.kwargs :=
       <["label" := forms.Arg (VStr label)]>
       (<["required" := forms.Arg (VBool true)]>
       (<["widget" := forms.WidgetArg (forms.DateInput {[ "type" := VStr "date" ]})]>
        ∅)) |}.

Definition Duration_get_fields (name label_from label_until : string)
    : gmap string forms.field :=
  <[name +:+ "_until" := Duration_date_field label_until]>
  (<[name +:+ "_from" := Duration_date_field label_from]> ∅).

(** [HoneypotField.validate] on the str the field cleans. The inherited
    [validate] of [django.forms.Field] refuses an empty value when the
    field is required; [repr_value] is [repr(value)]. *)
Definition HoneypotField_validate (required : bool) (repr_value : string)
    (value : string) : result unit :=
  _ ← (if negb (nonempty value) && required
       then Raise (ValidationError None "This field is required.")
       else Ok tt);
  if nonempty value
  then Raise (ValidationError None ("Invalid honeypot value " +:+ repr_value))
  else Ok tt.

(** The name "abc" followed by a line feed. *)
Definition name_with_line_feed : string := "abc" +:+ NL.

End Testapp.

(** * Properties *)

(** ** Strings *)

Section StringFacts.

Implicit Types (s l : string) (c : ascii).

Lemma splitlines_cons_line l rest :
  no_linebreak l = true ->
  splitlines (l +:+ NL +:+ rest) = l :: splitlines rest.
Proof.
  unfold no_linebreak. induction l as [|c l IH]; simpl; intros H.
  - destruct rest; reflexivity.
  - apply negb_true_iff, orb_false_iff in H as [Hc Hl].
    rewrite Hc, IH; [reflexivity|]. now rewrite Hl.
Qed.

Lemma splitlines_single l :
  no_linebreak l = true ->
  splitlines l = if nonempty l then [l] else [].
Proof.
  unfold no_linebreak. induction l as [|c l IH]; simpl; intros H; [reflexivity|].
  apply negb_true_iff, orb_false_iff in H as [Hc Hl].
  rewrite Hc, IH by now rewrite Hl.
  destruct l; reflexivity.
Qed.

Lemma splitlines_join lines :
  Forall (fun l => no_linebreak l = true) lines ->
  filter (fun l => nonempty l = true) (splitlines (join NL lines))
  = filter (fun l => nonempty l = true) lines.
Proof.
  induction 1 as [|l lines Hl Hls IH]; [reflexivity|].
  destruct lines as [|l' lines].
  - simpl join. rewrite splitlines_single by assumption.
    destruct l; reflexivity.
  - change (join NL (l :: l' :: lines)) with (l +:+ NL +:+ join NL (l' :: lines)).
    rewrite splitlines_cons_line by assumption.
    rewrite !(filter_cons _ l). now rewrite IH.
Qed.

Lemma split_once_absent sep s :
  string_existsb (Ascii.eqb sep) s = false ->
  split_once sep s = (s, None).
Proof.
  induction s as [|c s IH]; simpl; intros H; [reflexivity|].
  apply orb_false_iff in H as [Hc Hs].
  rewrite Ascii.eqb_sym, Hc, IH by assumption. reflexivity.
Qed.

Lemma split_once_first sep a b :
  string_existsb (Ascii.eqb sep) a = false ->
  split_once sep (a +:+ String sep b) = (a, Some b).
Proof.
  induction a as [|c a IH]; simpl; intros H.
  - now rewrite Ascii.eqb_refl.
  - apply orb_false_iff in H as [Hc Hs].
    rewrite Ascii.eqb_sym, Hc, IH by assumption. reflexivity.
Qed.

End StringFacts.

(** The string functions on the inputs where the interpreter's behaviour is
    easiest to get wrong. *)
Example splitlines_final_boundary :
  splitlines ("a" +:+ NL) = ["a"] /\ splitlines ("a" +:+ NL +:+ NL) = ["a"; ""]
  /\ splitlines NL = [""] /\ splitlines "" = [].
Proof. repeat split. Qed.

Example splitlines_CR_LF :
  splitlines ("a" +:+ String CR NL +:+ "b") = ["a"; "b"]
  /\ splitlines ("a" +:+ String LF (String CR "b")) = ["a"; ""; "b"].
Proof. repeat split. Qed.

Example split_once_examples :
  split_once SimpleFieldBase.PIPE "a|b|c" = ("a", Some "b|c")
  /\ split_once SimpleFieldBase.PIPE "abc" = ("abc", None)
  /\ split_once SimpleFieldBase.PIPE "|" = ("", Some "")
  /\ rsplit_once DOT "a.b.c" = Some ("a.b", "c")
  /\ rsplit_once DOT "abc" = None.
Proof. repeat split. Qed.

Example strip_examples :
  strip "  a b  " = "a b" /\ strip ("a" +:+ NL) = "a" /\ strip "   " = "".
Proof. repeat split. Qed.

Example re_match_dotted_examples :
  FormType.re_match_dotted "os.path" = true
  /\ FormType.re_match_dotted "a.." = true
  /\ FormType.re_match_dotted ("a.b" +:+ NL) = true
  /\ FormType.re_match_dotted "a." = false
  /\ FormType.re_match_dotted ".a" = false
  /\ FormType.re_match_dotted "contact" = false
  /\ FormType.re_match_dotted "a b.c" = false.
Proof. repeat split. Qed.

Example name_regex_examples :
  anchored NameField.name_fullmatch "snake_case_1" = true
  /\ anchored NameField.name_fullmatch "Snake" = false
  /\ anchored NameField.name_fullmatch "" = false
  /\ anchored NameField.name_fullmatch NL = false
  /\ anchored NameField.name_fullmatch ("abc" +:+ NL +:+ NL) = false
  /\ anchored NameField.name_fullmatch ("abc" +:+ NL) = true.
Proof. repeat split. Qed.

(** ** FormType: dotted paths *)

Section DottedPaths.

Import FormType.

Variable modules : gmap string (gmap string pyval).
Variable class_attr : string -> option pyval.

Lemma getattr_cached (self : t) attr v :
  getattr modules class_attr (setattr self attr v) attr
  = (Ok v, setattr self attr v, []).
Proof. unfold getattr, setattr. simpl. now rewrite lookup_insert_eq. Qed.

Lemma getattr_first (self : t) attr s :
  items self !! attr = Some (VStr s) ->
  __dict__ self !! attr = None ->
  class_attr attr = None ->
  re_match_dotted s = true ->
  getattr modules class_attr self attr =
  match suppress_ModuleNotFoundError (import_string modules s) (VStr s) with
  | Ok v => (Ok v, setattr self attr v, [s])
  | Raise e => (Raise e, self, [s])
  end.
Proof.
  intros Hitem Hdict Hcls Hre.
  unfold getattr, __getattr__, Type___getattr__.
  rewrite Hdict, Hcls, Hitem. simpl. rewrite Hre.
  destruct (suppress_ModuleNotFoundError _ _); reflexivity.
Qed.

(** Claim C3, amended. Let the value stored under [attr] be a str that
    matches the dotted pattern, on an instance that has not cached [attr].
    If the path resolves, the first access returns the object and caches
    it, and the second access returns the same object without any import.
    If the module cannot be found, the same holds with the raw str in
    place of the object, and nothing is raised. If the module is found but
    lacks the attribute, the access raises the [ImportError] of
    [import_string] and caches nothing. *)
Theorem getattr_dotted_path (self : t) (attr s : string) :
  items self !! attr = Some (VStr s) ->
  __dict__ self !! attr = None ->
  class_attr attr = None ->
  re_match_dotted s = true ->
  match import_string modules s with
  | Ok v =>
      getattr modules class_attr self attr = (Ok v, setattr self attr v, [s])
      /\ getattr modules class_attr (setattr self attr v) attr
         = (Ok v, setattr self attr v, [])
  | Raise ModuleNotFoundError =>
      getattr modules class_attr self attr
      = (Ok (VStr s), setattr self attr (VStr s), [s])
      /\ getattr modules class_attr (setattr self attr (VStr s)) attr
         = (Ok (VStr s), setattr self attr (VStr s), [])
  | Raise e =>
      e = ImportError
      /\ getattr modules class_attr self attr = (Raise ImportError, self, [s])
  end.
Proof.
  intros Hitem Hdict Hcls Hre.
  rewrite (getattr_first self attr s Hitem Hdict Hcls Hre).
  destruct (import_string modules s) as [v|e] eqn:Himp; simpl.
  - split; [reflexivity | apply getattr_cached].
  - assert (e = ImportError \/ e = ModuleNotFoundError) as [-> | ->].
    { unfold import_string in Himp.
      destruct (rsplit_once DOT s) as [[m c]|]; [|injection Himp; auto].
      destruct (modules !! m) as [ns|]; [|injection Himp; auto].
      destruct (ns !! c); [discriminate | injection Himp; auto]. }
    + split; reflexivity.
    + split; [reflexivity | apply getattr_cached].
Qed.

End DottedPaths.

Lemma getattr_dotted_path_witness :
  FormType.getattr Testapp.modules Testapp.no_class_attr Testapp.contact "validate"
  = (Ok (VObj 20), FormType.setattr Testapp.contact "validate" (VObj 20),
     ["testapp.forms.validate_contact_form"])
  /\ FormType.getattr Testapp.modules Testapp.no_class_attr
       (FormType.setattr Testapp.contact "validate" (VObj 20)) "validate"
     = (Ok (VObj 20), FormType.setattr Testapp.contact "validate" (VObj 20), []).
Proof.
  exact (getattr_dotted_path Testapp.modules Testapp.no_class_attr
           Testapp.contact "validate" "testapp.forms.validate_contact_form"
           eq_refl eq_refl eq_refl eq_refl).
Defined.

(** The claim as stated fails when the module exists and lacks the
    attribute: the value matches the pattern and does not resolve, and the
    access raises instead of returning the raw str. *)
Lemma getattr_missing_attribute_raises :
  FormType.re_match_dotted "testapp.forms.validate_contact_form" = true
  /\ FormType.import_string Testapp.modules_without_validate
       "testapp.forms.validate_contact_form" = Raise ImportError
  /\ FormType.getattr Testapp.modules_without_validate Testapp.no_class_attr
       Testapp.contact "validate"
     = (Raise ImportError, Testapp.contact, ["testapp.forms.validate_contact_form"]).
Proof. repeat split; vm_compute; reflexivity. Qed.

(** ** NameField: normalisation and validation of names *)

Section Names.

Import NameField.

Lemma choice_in_class r :
  let c := choice RANDOM_STRING_CHARS r in is_lower c || is_digit c = true.
Proof.
  unfold choice.
  assert (r mod String.length RANDOM_STRING_CHARS < 36)%nat as Hlt
    by (apply Nat.mod_upper_bound; discriminate).
  revert Hlt. generalize (r mod String.length RANDOM_STRING_CHARS)%nat as n.
  intros n Hlt.
  do 36 (destruct n as [|n]; [reflexivity|]). lia.
Qed.

Lemma string_of_list_length (l : list ascii) :
  String.length (string_of_list_ascii l) = length l.
Proof. induction l; simpl; congruence. Qed.

Lemma string_of_list_forallb p (l : list ascii) :
  string_forallb p (string_of_list_ascii l) = forallb p l.
Proof. induction l; simpl; congruence. Qed.

(** The empty value, [None] or the empty str, becomes "field_" followed by
    ten characters of [a-z0-9], whatever the random draws. *)
Lemma to_python_empty (draws : nat -> nat) (value : option string) :
  value = None \/ value = Some EmptyString ->
  exists suffix,
    to_python value draws = "field_" +:+ suffix
    /\ String.length suffix = 10%nat
    /\ string_forallb (fun c => is_lower c || is_digit c) suffix = true.
Proof.
  intros Hempty. exists (get_random_string 10 RANDOM_STRING_CHARS draws).
  split; [destruct Hempty as [-> | ->]; reflexivity|].
  unfold get_random_string. split.
  - now rewrite string_of_list_length, length_map, length_seq.
  - rewrite string_of_list_forallb, forallb_forall.
    intros c Hc. apply in_map_iff in Hc as (i & <- & _). apply choice_in_class.
Qed.

(** A non-empty str is returned as it is. *)
Lemma to_python_nonempty (draws : nat -> nat) (s : string) :
  s <> EmptyString -> to_python (Some s) draws = s.
Proof. destruct s; [congruence | reflexivity]. Qed.

(** The validator accepts exactly the non-empty strings over [a-z0-9_] and
    those followed by one line feed. *)
Lemma validator_accepts (value : string) :
  validator value = Ok tt
  <-> name_fullmatch value = true
      \/ exists w, before_final_LF value = Some w /\ name_fullmatch w = true.
Proof.
  unfold validator, anchored.
  destruct (name_fullmatch value); simpl; [intuition|].
  destruct (before_final_LF value) as [w|].
  - destruct (name_fullmatch w) eqn:Hw.
    + split; [right; eauto | reflexivity].
    + split; [discriminate|]. intros [|(w' & [= <-] & ?)]; congruence.
  - split; [discriminate|]. intros [|(w' & ? & ?)]; congruence.
Qed.

Lemma to_python_empty_witness :
  exists suffix,
    to_python None (fun i => (7 * i + 3)%nat) = "field_" +:+ suffix
    /\ String.length suffix = 10%nat
    /\ string_forallb (fun c => is_lower c || is_digit c) suffix = true.
Proof. exact (to_python_empty (fun i => (7 * i + 3)%nat) None (or_introl eq_refl)). Defined.

Lemma to_python_nonempty_witness :
  to_python (Some "first_name") (fun i => i) = "first_name".
Proof. apply (to_python_nonempty (fun i => i) "first_name"). discriminate. Defined.

Example to_python_sample :
  to_python (Some "") (fun i => (7 * i + 3)%nat) = "field_dkry5cjqx4".
Proof. reflexivity. Qed.

(** A str with a character outside [a-z0-9_] is refused unless that
    character is a line feed in the last position. *)
Lemma validator_rejects (value : string) :
  string_forallb is_name_char value = false ->
  before_final_LF value = None ->
  validator value = Raise (ValidationError None message).
Proof.
  intros Hbad Hlf. unfold validator, anchored, name_fullmatch.
  now rewrite Hbad, Hlf, andb_false_r.
Qed.

Lemma validator_rejects_witness :
  validator "First Name" = Raise (ValidationError None message).
Proof. apply validator_rejects; reflexivity. Defined.

(** Claim C4, at the input where the code departs from it. The name "abc"
    followed by a line feed contains a character outside [a-z0-9_]; it is
    not empty, so [to_python] returns it as it is, and the validator
    accepts it. *)
Theorem validator_accepts_final_line_feed :
  string_forallb is_name_char Testapp.name_with_line_feed = false
  /\ (forall draws,
        to_python (Some Testapp.name_with_line_feed) draws
        = Testapp.name_with_line_feed)
  /\ validator Testapp.name_with_line_feed = Ok tt.
Proof. repeat split. Qed.

End Names.

(** ** FormFieldBase: the defaults of the plugin contract *)

Section Contract.

Import FormFieldBase.

(** Claim C8. On a row whose type does not define the method itself,
    [get_initial] returns the empty mapping, [get_cleaners] the empty
    sequence, and [get_fields] and [get_loaders] raise
    [NotImplementedError]. *)
Theorem base_contract_defaults (cls : subclass) (self : t) :
  (own_get_initial cls = None -> call_get_initial cls self = ∅)
  /\ (own_get_cleaners cls = None -> call_get_cleaners cls self = [])
  /\ (own_get_fields cls = None ->
      forall kwargs,
        call_get_fields cls self kwargs
        = Raise (NotImplementedError
                   (label_lower self +:+ " needs a get_fields implementation")))
  /\ (own_get_loaders cls = None ->
      call_get_loaders cls self
      = Raise (NotImplementedError
                 (label_lower self +:+ " needs a get_loaders implementation"))).
Proof.
  unfold call_get_initial, call_get_cleaners, call_get_fields, call_get_loaders.
  repeat split; intros ->; reflexivity.
Qed.

Lemma base_contract_defaults_witness :
  call_get_initial Testapp.FieldsOnly Testapp.plugin_row = ∅
  /\ call_get_cleaners Testapp.FieldsOnly Testapp.plugin_row = []
  /\ call_get_fields Testapp.Bare Testapp.plugin_row ∅
     = Raise (NotImplementedError "shop.address needs a get_fields implementation")
  /\ call_get_loaders Testapp.FieldsOnly Testapp.plugin_row
     = Raise (NotImplementedError "shop.address needs a get_loaders implementation").
Proof.
  destruct (base_contract_defaults Testapp.FieldsOnly Testapp.plugin_row)
    as (Hi & Hc & _ & Hl).
  destruct (base_contract_defaults Testapp.Bare Testapp.plugin_row)
    as (_ & _ & Hf & _).
  exact (conj (Hi eq_refl) (conj (Hc eq_refl) (conj (Hf eq_refl ∅) (Hl eq_refl)))).
Defined.

End Contract.

(** ** ConfiguredForm: regions of an unknown form type *)

Section Regions.

Import ConfiguredForm.

Variable modules : gmap string (gmap string pyval).
Variable class_attr : string -> option pyval.
Variable callable : pyval -> bool.
Variable call : pyval -> t -> result pyval.

(** Every key of [types] is the value of [type.key] on some FormType of
    [FORMS]. *)
Lemma types_of_keys (forms : list FormType.t) tys :
  types_of modules class_attr forms = Ok tys ->
  Forall (fun kv : pyval * FormType.t =>
            exists type, type ∈ forms
              /\ (FormType.getattr modules class_attr type "key").1.1 = Ok kv.1) tys.
Proof.
  revert tys. induction forms as [|type forms IH]; simpl; intros tys H.
  - injection H as <-. constructor.
  - destruct (FormType.getattr modules class_attr type "key") as [[key type'] log] eqn:Hkey.
    destruct key as [key|e]; simpl in H; [|discriminate].
    destruct (hashable key); [|discriminate].
    destruct (types_of modules class_attr forms) as [more|e]; simpl in H; [|discriminate].
    injection H as <-. constructor.
    + exists type. split; [left|]. now rewrite Hkey.
    + eapply Forall_impl; [apply IH; reflexivity|].
      intros kv (ty & Hin & Hk). exists ty. split; [now right | exact Hk].
Qed.

Lemma types_get_unknown (tys : list (pyval * FormType.t)) key :
  Forall (fun kv : pyval * FormType.t => kv.1 <> VStr key) tys ->
  types_get tys key = None.
Proof.
  intros H. unfold types_get.
  replace (filter _ tys) with (@nil (pyval * FormType.t)); [reflexivity|].
  symmetry. induction H as [|[k ty] tys Hk _ IH]; [reflexivity|].
  rewrite filter_cons_False; [exact IH|].
  simpl in *. destruct k; simpl; congruence.
Qed.

(** Claim C10. On a prepared class, when [form_type] is not the key of any
    FormType of [FORMS], [regions] returns the empty list and raises
    nothing. *)
Theorem regions_unknown_form_type (cls : sender) (p : prepared) (self : t) :
  fill_form_choices modules class_attr cls = Ok (Some p) ->
  Forall (fun type =>
            (FormType.getattr modules class_attr type "key").1.1
            <> Ok (VStr (form_type self))) (FORMS cls) ->
  regions modules class_attr callable call (Some p) self = Ok (VList []).
Proof.
  intros Hprep Hkeys. unfold fill_form_choices in Hprep.
  destruct (is_ConfiguredForm cls && negb (abstract cls)); [|discriminate].
  destruct (choices_of (FORMS cls)) as [chs|e]; simpl in Hprep; [|discriminate].
  destruct (types_of modules class_attr (FORMS cls)) as [tys|e] eqn:Htys;
    simpl in Hprep; [|discriminate].
  injection Hprep as <-.
  unfold regions, type_regions. simpl.
  rewrite types_get_unknown; [reflexivity|].
  eapply Forall_impl; [apply types_of_keys, Htys|].
  intros kv (type & Hin & Hk) Heq.
  rewrite Forall_forall in Hkeys. apply (Hkeys type Hin). now rewrite Hk, Heq.
Qed.

End Regions.

Lemma regions_unknown_form_type_witness :
  ConfiguredForm.regions Testapp.modules Testapp.no_class_attr
    (fun _ => false) (fun v _ => Ok v)
    (Some Testapp.prepared) (Testapp.form "newsletter")
  = Ok (VList []).
Proof.
  apply (regions_unknown_form_type Testapp.modules Testapp.no_class_attr
           (fun _ => false) (fun v _ => Ok v) Testapp.ConfiguredForm).
  - vm_compute. reflexivity.
  - repeat constructor; vm_compute; discriminate.
Defined.

(** ** ConfiguredForm: the union query *)

Section Union.

Import ConfiguredForm.

Implicit Types (p : plugin) (row : gmap string pyval) (self : t).

(** *** Dicts built by successive stores *)

Lemma fold_insert_frame {A V : Type} (f : A -> string * V) (l : list A)
    (d : gmap string V) k :
  k ∉ map (fun a => (f a).1) l ->
  fold_left (fun d a => <[(f a).1 := (f a).2]> d) l d !! k = d !! k.
Proof.
  revert d. induction l as [|a l IH]; intros d Hk; simpl; [reflexivity|].
  simpl in Hk. apply not_elem_of_cons in Hk as [Hne Hk].
  rewrite IH by assumption. now rewrite lookup_insert_ne.
Qed.

(** Every store under [k] writes the same value [v]: the dict holds [v]
    under [k] as soon as one such store exists. *)
Lemma fold_insert_agree {A V : Type} (f : A -> string * V) (l : list A)
    (d : gmap string V) k v :
  (forall a, a ∈ l -> (f a).1 = k -> (f a).2 = v) ->
  (exists a, a ∈ l /\ (f a).1 = k) ->
  fold_left (fun d a => <[(f a).1 := (f a).2]> d) l d !! k = Some v.
Proof.
  revert d. induction l as [|a l IH]; intros d Hall (a0 & Hin & Hk); simpl.
  - inversion Hin.
  - destruct (decide (k ∈ map (fun a => (f a).1) l)) as [Hlater|Hlast].
    + apply IH.
      * intros a' Ha'. apply Hall. now right.
      * apply list_elem_of_fmap in Hlater as (a' & -> & Ha'). eauto.
    + rewrite fold_insert_frame by assumption.
      assert ((f a).1 = k) as Hak.
      { apply elem_of_cons in Hin as [<- | Hin]; [exact Hk|].
        exfalso. apply Hlast, list_elem_of_fmap. eauto. }
      rewrite <- Hak, lookup_insert_eq. f_equal. apply Hall; [left | exact Hak].
Qed.

(** *** Aliases *)

Lemma alias_inj i j : alias i = alias j -> i = j.
Proof. unfold alias. intros H. simpl in H. injection H as H. now apply (inj pretty). Qed.

Lemma alias_not_name i : alias i <> "name".
Proof. unfold alias. simpl. discriminate. Qed.

Lemma columns_of_lookup (attributes : list string) i :
  columns_of attributes !! i = (fun a => (alias i, a)) <$> attributes !! i.
Proof. unfold columns_of. now rewrite list_lookup_imap. Qed.

Lemma columns_of_elem (attributes : list string) c :
  c ∈ columns_of attributes <->
  exists i a, attributes !! i = Some a /\ c = (alias i, a).
Proof.
  rewrite list_elem_of_lookup. split.
  - intros (i & Hi). rewrite columns_of_lookup in Hi.
    destruct (attributes !! i) as [a|] eqn:Ha; [|discriminate].
    injection Hi as <-. eauto.
  - intros (i & a & Ha & ->). exists i. now rewrite columns_of_lookup, Ha.
Qed.

(** The annotation stored under the alias of position [i] is the one of the
    attribute at position [i]. *)
Lemma annotations_of_alias p (attributes : list string) i a :
  attributes !! i = Some a ->
  annotations_of p (columns_of attributes) !! alias i = Some (annotation p a).
Proof.
  intros Ha. unfold annotations_of.
  apply (fold_insert_agree (fun c : string * string => (c.1, annotation p c.2))).
  - intros c Hc Hk. simpl in *.
    apply columns_of_elem in Hc as (j & b & Hb & ->). simpl in *.
    apply alias_inj in Hk as ->. congruence.
  - exists (alias i, a). split; [|reflexivity].
    apply columns_of_elem. eauto.
Qed.

Lemma annotations_of_name p (attributes : list string) :
  annotations_of p (columns_of attributes) !! "name" = None.
Proof.
  unfold annotations_of.
  rewrite (fold_insert_frame (fun c : string * string => (c.1, annotation p c.2))).
  - apply lookup_empty.
  - intros Hin. apply list_elem_of_fmap in Hin as (c & Hc & Hin). simpl in Hc.
    apply columns_of_elem in Hin as (i & a & _ & ->).
    symmetry in Hc. now apply alias_not_name in Hc.
Qed.

(** *** One plugin *)

Lemma FIELD_DEFAULTS_documented (attribute : string) :
  default (VStr "", TextField) (FIELD_DEFAULTS !! attribute)
  = (documented_default attribute, documented_field attribute).
Proof.
  unfold FIELD_DEFAULTS, documented_default, documented_field.
  destruct (decide (attribute = "is_collapsible")) as [->|H1]; [reflexivity|].
  destruct (decide (attribute = "is_collapse_below")) as [->|H2]; [reflexivity|].
  destruct (decide (attribute = "is_collapsed_by_default")) as [->|H3]; [reflexivity|].
  rewrite !lookup_insert_ne, lookup_empty by congruence.
  rewrite !bool_decide_false; [reflexivity|..];
    rewrite !elem_of_cons, elem_of_nil; tauto.
Qed.

(** The expression the query builds for an attribute is the one the
    specification describes. *)
Lemma annotation_resolved p (attribute : string) :
  annotation p attribute = resolved_expression p attribute.
Proof.
  unfold annotation, resolved_expression.
  case_bool_decide; [reflexivity|].
  destruct (class_attrs p !! attribute) as [[]|]; simpl; try reflexivity;
    now rewrite FIELD_DEFAULTS_documented.
Qed.

Lemma annotation_column p a : a ∈ fields p -> annotation p a = F a.
Proof. intros H. unfold annotation. now rewrite bool_decide_true. Qed.

Lemma annotation_class_attr p a v :
  a ∉ fields p -> class_attrs p !! a = Some v -> is_not_None v = true ->
  annotation p a = Value v TextField.
Proof.
  intros H Hv Hnn. unfold annotation.
  rewrite bool_decide_false, Hv by assumption. simpl. now rewrite Hnn.
Qed.

Lemma annotation_default p a :
  a ∉ fields p -> default VNone (class_attrs p !! a) = VNone ->
  annotation p a = Value (documented_default a) (documented_field a).
Proof.
  intros H Hv. unfold annotation. rewrite bool_decide_false by assumption.
  rewrite Hv. simpl. now rewrite FIELD_DEFAULTS_documented.
Qed.

(** The names of [values_list] select the name and, position by position,
    the annotations of the attributes. *)
Lemma values_list_operand p self (attributes : list string) :
  values_list p self (columns_of attributes)
    ("name" :: map fst (columns_of attributes))
  = [operand_of self attributes p].
Proof.
  unfold values_list, operand_of. do 2 f_equal. simpl. f_equal.
  - unfold expression_of. now rewrite annotations_of_name.
  - apply list_eq. intros i.
    rewrite !list_lookup_fmap, columns_of_lookup.
    destruct (attributes !! i) as [a|] eqn:Ha; simpl; [|reflexivity].
    unfold expression_of. now rewrite (annotations_of_alias p attributes i a Ha).
Qed.

Lemma row_to_pair_values (attributes : list string) (g : string -> pyval) n :
  row_to_pair (columns_of attributes) (n :: map g attributes)
  = (n, dict_of_pairs (map (fun a => (a, g a)) attributes)).
Proof.
  unfold row_to_pair. simpl. rewrite drop_0. do 2 f_equal.
  apply list_eq. intros i.
  rewrite !list_lookup_fmap, lookup_zip_with, columns_of_lookup, list_lookup_fmap.
  destruct (attributes !! i); reflexivity.
Qed.

(** The rows of one operand become the pairs written out. *)
Lemma rows_of_pairs b self (attributes : list string) p0 p :
  map (row_to_pair (columns_of attributes))
      (rows_of b (operand_of self attributes p0) (operand_of self attributes p))
  = map (output_pair b p0 attributes p) (filter_parent p self).
Proof.
  unfold rows_of. cbn [operand_of model parent selected].
  rewrite <- list_fmap_compose.
  apply list_fmap_ext. intros _ row _. unfold output_pair.
  rewrite <- (row_to_pair_values attributes
                (fun a => fetch b (p0, annotation p0 a) (p, annotation p a) row)).
  cbn. do 2 f_equal. apply list_eq. intros i.
  rewrite !list_lookup_fmap, lookup_zip_with, !list_lookup_fmap.
  destruct (attributes !! i); reflexivity.
Qed.

Lemma output_pair_lookup b p0 p row (attributes : list string) a :
  a ∈ attributes ->
  (output_pair b p0 attributes p row).2 !! a
  = Some (fetch b (p0, annotation p0 a) (p, annotation p a) row).
Proof.
  intros Ha. unfold output_pair, dict_of_pairs. cbn [snd].
  apply (fold_insert_agree (fun kv : string * pyval => kv)).
  - intros kv Hkv Hk. apply list_elem_of_fmap in Hkv as (a' & -> & _).
    simpl in *. now subst.
  - eexists (a, _). split; [|reflexivity].
    apply (list_elem_of_fmap_2
             (fun a => (a, fetch b (p0, annotation p0 a) (p, annotation p a) row))).
    exact Ha.
Qed.

(** *** All plugins *)

Lemma querysets_of_filter self columns values (plugins : list plugin) :
  querysets_of self columns values plugins
  = map (fun p => values_list p self columns values)
        (filter (fun p => is_FormFieldBase p = true) plugins).
Proof.
  induction plugins as [|p plugins IH]; [reflexivity|]. simpl.
  destruct (is_FormFieldBase p) eqn:Hp; simpl.
  - rewrite filter_cons_True by assumption. simpl. now rewrite IH.
  - rewrite filter_cons_False by congruence. exact IH.
Qed.

(** The reduction chains the operands of the querysets. *)
Lemma foldl_union_all (qs : list queryset) (acc : queryset) :
  foldl union_all acc qs = (acc ++ concat qs)%list.
Proof.
  revert acc. induction qs as [|q qs IH]; intros acc; simpl.
  - now rewrite app_nil_r.
  - rewrite IH. unfold union_all. now rewrite app_assoc.
Qed.

Lemma reduce_union_operands self (attributes : list string) p0 (ps : list plugin) :
  reduce_union
    (map (fun p => values_list p self (columns_of attributes)
                     ("name" :: map fst (columns_of attributes))) (p0 :: ps))
  = Ok (map (operand_of self attributes) (p0 :: ps)).
Proof.
  cbn [map reduce_union]. rewrite foldl_union_all, values_list_operand.
  f_equal. cbn [app]. f_equal.
  induction ps as [|p ps IH]; [reflexivity|].
  cbn [map concat]. now rewrite values_list_operand, IH.
Qed.

Lemma existsb_seq_lookup {A : Type} (l : list A) (g : A -> bool)
    (f : nat -> bool) (k : nat) :
  (forall i a, l !! i = Some a -> f (k + i)%nat = g a) ->
  existsb f (seq k (length l)) = existsb g l.
Proof.
  revert k. induction l as [|a l IH]; intros k H; [reflexivity|].
  cbn [length seq existsb]. f_equal.
  - rewrite <- (H 0%nat a eq_refl). f_equal. lia.
  - apply IH. intros i a' Ha'. rewrite <- (H (S i) a' Ha'). f_equal. lia.
Qed.

Lemma omap_map_Some {A B C : Type} (f : B -> option C) (g : A -> B)
    (h : A -> C) (l : list A) :
  (forall x, f (g x) = Some (h x)) -> omap f (map g l) = map h l.
Proof.
  intros H. induction l as [|x l IH]; [reflexivity|]. cbn [map].
  change (omap f (g x :: map g l))
    with (match f (g x) with
          | Some y => y :: omap f (map g l)
          | None => omap f (map g l)
          end).
  now rewrite H, IH.
Qed.

Lemma column_of_name self (attributes : list string) (ps : list plugin) :
  column_of (map (operand_of self attributes) ps) 0
  = map (fun p => (p, F "name")) ps.
Proof. unfold column_of. apply omap_map_Some. reflexivity. Qed.

Lemma column_of_attribute self (attributes : list string) (ps : list plugin) i a :
  attributes !! i = Some a ->
  column_of (map (operand_of self attributes) ps) (S i)
  = map (fun p => (p, annotation p a)) ps.
Proof.
  intros Ha. unfold column_of. apply omap_map_Some. intros p.
  cbn [operand_of selected model].
  change ((F "name" :: map (annotation p) attributes) !! S i)
    with (map (annotation p) attributes !! i).
  now rewrite list_lookup_fmap, Ha.
Qed.

(** Running the statement over the operands of the plugins [ps]. *)
Lemma execute_operands b self (attributes : list string) p0 (ps : list plugin) :
  execute b (map (operand_of self attributes) (p0 :: ps))
  = if refused b (p0 :: ps) attributes then Raise DatabaseError
    else Ok (concat (map (rows_of b (operand_of self attributes p0))
                         (map (operand_of self attributes) (p0 :: ps)))).
Proof.
  destruct ps as [|p1 ps].
  - cbn. now rewrite app_nil_r.
  - set (l := p0 :: p1 :: ps).
    assert (forallb (fun op => length (selected op)
                               =? length (selected (operand_of self attributes p0)))%nat
                    (map (operand_of self attributes) l) = true) as Harity.
    { apply forallb_forall. intros op Hop.
      apply in_map_iff in Hop as (p & <- & _).
      cbn. rewrite !length_map. apply Nat.eqb_refl. }
    assert (map model (map (operand_of self attributes) l) = l) as Hmodels.
    { rewrite map_map. apply map_id. }
    assert (existsb (fun i => refuses_column b
                                (column_of (map (operand_of self attributes) l) i))
                    (seq 0 (length (selected (operand_of self attributes p0))))
            = refuses_column b (map (fun p => (p, F "name")) l)
              || existsb (fun a => refuses_column b
                                     (map (fun p => (p, annotation p a)) l))
                         attributes) as Hcolumns.
    { cbn [operand_of selected length]. rewrite length_map.
      cbn [seq existsb]. rewrite column_of_name. f_equal.
      apply existsb_seq_lookup. intros i a Ha. change (1 + i)%nat with (S i).
      now rewrite (column_of_attribute self attributes l i a Ha). }
    change (execute b (map (operand_of self attributes) l))
      with (if negb (forallb (fun op => length (selected op)
                                        =? length (selected (operand_of self attributes p0)))%nat
                             (map (operand_of self attributes) l))
               || refuses_operands b (map model (map (operand_of self attributes) l))
               || existsb (fun i => refuses_column b
                                      (column_of (map (operand_of self attributes) l) i))
                          (seq 0 (length (selected (operand_of self attributes p0))))
            then Raise DatabaseError
            else Ok (concat (map (rows_of b (operand_of self attributes p0))
                                 (map (operand_of self attributes) l)))).
    rewrite Harity, Hmodels, Hcolumns. cbn [negb orb].
    unfold refused, l. now rewrite orb_assoc.
Qed.

(** The query, in closed form: without a [FormFieldBase] plugin it raises
    [IndexError]; a union the storage refuses raises [DatabaseError];
    otherwise the pairs come plugin by plugin and row by row. *)
Lemma get_formfields_union_rows b self (plugins : list plugin)
    (attributes : list string) :
  get_formfields_union b self plugins attributes =
  match filter (fun p => is_FormFieldBase p = true) plugins with
  | [] => Raise IndexError
  | p0 :: rest =>
      if refused b (p0 :: rest) attributes then Raise DatabaseError
      else Ok (concat (map (fun p => map (output_pair b p0 attributes p)
                                         (filter_parent p self)) (p0 :: rest)))
  end.
Proof.
  unfold get_formfields_union. rewrite querysets_of_filter.
  destruct (filter _ plugins) as [|p0 ps]; [reflexivity|].
  rewrite reduce_union_operands. unfold mbind, result_bind.
  rewrite execute_operands.
  destruct (refused b (p0 :: ps) attributes); [reflexivity|]. f_equal.
  generalize (p0 :: ps). intros l.
  induction l as [|p l IH]; [reflexivity|].
  cbn [map concat]. now rewrite List.map_app, rows_of_pairs, IH.
Qed.

(** What the query returns when it returns. *)
Lemma get_formfields_union_Ok b self (plugins : list plugin)
    (attributes : list string) out :
  get_formfields_union b self plugins attributes = Ok out ->
  exists p0 rest,
    filter (fun p => is_FormFieldBase p = true) plugins = p0 :: rest
    /\ out = concat (map (fun p => map (output_pair b p0 attributes p)
                                       (filter (fun row => parent_is self row = true)
                                               (table p)))
                         (p0 :: rest)).
Proof.
  intros Hout. rewrite get_formfields_union_rows in Hout.
  destruct (filter _ plugins) as [|p0 rest]; [discriminate|].
  destruct (refused b (p0 :: rest) attributes); [discriminate|].
  injection Hout as <-. exists p0, rest. split; reflexivity.
Qed.

(** Claim C1. Whatever the query returns is, plugin by plugin and row by
    row, the name of the row with a mapping that holds under every
    requested attribute what the storage hands back for the expression
    selected for it. That expression is the one the specification
    describes: the column when the attribute is a column of the plugin,
    else a literal of the class attribute of that name when there is one
    other than [None], else a literal of the default, which is false for
    [is_collapsible], [is_collapse_below] and [is_collapsed_by_default]. *)
Theorem union_resolution_order b self (plugins : list plugin)
    (attributes : list string) out :
  get_formfields_union b self plugins attributes = Ok out ->
  (exists p0 rest,
      filter (fun p => is_FormFieldBase p = true) plugins = p0 :: rest
      /\ out = concat (map (fun p => map (output_pair b p0 attributes p)
                                         (filter (fun row => parent_is self row = true)
                                                 (table p)))
                           (p0 :: rest)))
  /\ (forall p0 p row a,
        a ∈ attributes ->
        (output_pair b p0 attributes p row).2 !! a
        = Some (fetch b (p0, resolved_expression p0 a) (p, resolved_expression p a) row))
  /\ (forall p i a,
        attributes !! i = Some a ->
        annotations_of p (columns_of attributes) !! alias i
        = Some (resolved_expression p a))
  /\ (forall p a,
        (a ∈ fields p -> annotation p a = F a)
        /\ (a ∉ fields p ->
            forall v, class_attrs p !! a = Some v -> is_not_None v = true ->
                      annotation p a = Value v TextField)
        /\ (a ∉ fields p -> default VNone (class_attrs p !! a) = VNone ->
            annotation p a = Value (documented_default a) (documented_field a)))
  /\ documented_default "is_collapsible" = VBool false
  /\ documented_default "is_collapse_below" = VBool false
  /\ documented_default "is_collapsed_by_default" = VBool false.
Proof.
  intros Hout. split; [now apply get_formfields_union_Ok|].
  split; [|split; [|split; [|repeat split]]].
  - intros p0 p row a Ha. rewrite <- !annotation_resolved.
    now apply output_pair_lookup.
  - intros p i a Ha. rewrite <- annotation_resolved.
    now apply annotations_of_alias.
  - intros p a. split; [apply annotation_column|].
    split; [intros; now apply annotation_class_attr|].
    apply annotation_default.
Qed.

(** Claim C2, as amended. What the query returns holds the rows plugin by
    plugin in the order of [plugins], and within a plugin in the order of
    the plugin's own query: every row of a [FormFieldBase] plugin whose
    parent is the form, and no other row. Every requested attribute is
    present in every mapping; where the plugin has neither the column nor
    the class attribute the expression selected is the literal of the
    documented default. Every operand selects one column more than there
    are attributes, and the query fails in two cases only: with
    [IndexError] when no plugin is a [FormFieldBase] subclass, and with
    [DatabaseError] when the storage refuses the union, for its operands
    as a whole or for one of its columns. *)
Theorem union_order_presence_arity b self (plugins : list plugin)
    (attributes : list string) :
  (forall out,
      get_formfields_union b self plugins attributes = Ok out ->
      (exists p0 rest,
          filter (fun p => is_FormFieldBase p = true) plugins = p0 :: rest
          /\ out = concat (map (fun p => map (output_pair b p0 attributes p)
                                             (filter (fun row => parent_is self row = true)
                                                     (table p)))
                               (p0 :: rest)))
      /\ Forall (fun nd : pyval * gmap string pyval =>
                   forall a, a ∈ attributes -> is_Some (nd.2 !! a)) out)
  /\ (forall p a,
        a ∉ fields p -> default VNone (class_attrs p !! a) = VNone ->
        annotation p a = Value (documented_default a) (documented_field a))
  /\ Forall (fun q => Forall (fun op => length (selected op) = S (length attributes)) q)
       (querysets_of self (columns_of attributes)
          ("name" :: map fst (columns_of attributes)) plugins)
  /\ (forall e,
        get_formfields_union b self plugins attributes = Raise e ->
        (e = IndexError
         /\ filter (fun p => is_FormFieldBase p = true) plugins = [])
        \/ (e = DatabaseError
            /\ refused b (filter (fun p => is_FormFieldBase p = true) plugins)
                 attributes = true)).
Proof.
  split; [|split; [|split]]; cycle 3.
  { intros e He. rewrite get_formfields_union_rows in He.
    destruct (filter _ plugins) as [|p0 rest]; [left; split; congruence|].
    destruct (refused b (p0 :: rest) attributes) eqn:Hrefused; [|discriminate].
    right. split; congruence. }
  - intros out Hout.
    destruct (get_formfields_union_Ok b self plugins attributes out Hout)
      as (p0 & rest & Hfilter & ->).
    split; [exists p0, rest; now split|].
    apply Forall_concat, Forall_fmap, Forall_forall. intros p _.
    apply Forall_fmap, Forall_forall. intros row _ a Ha.
    rewrite output_pair_lookup by assumption. eauto.
  - intros p a. apply annotation_default.
  - rewrite querysets_of_filter. apply Forall_fmap, Forall_forall.
    intros p _. simpl. repeat constructor. simpl. unfold columns_of.
    now rewrite !length_map, length_imap.
Qed.

(** Claim C9. A plugin that is no [FormFieldBase] subclass changes nothing:
    the query returns what it returns without it. When no plugin is such
    a subclass, and so for the empty list, the query raises
    [IndexError]. *)
Theorem union_skips_other_plugins b self (plugins : list plugin)
    (attributes : list string) :
  get_formfields_union b self plugins attributes
  = get_formfields_union b self
      (filter (fun p => is_FormFieldBase p = true) plugins) attributes
  /\ (Forall (fun p => is_FormFieldBase p = false) plugins ->
      get_formfields_union b self plugins attributes = Raise IndexError)
  /\ get_formfields_union b self [] attributes = Raise IndexError.
Proof.
  split; [|split; [|reflexivity]].
  - rewrite !get_formfields_union_rows. now rewrite list_filter_filter_l.
  - intros Hnone. rewrite get_formfields_union_rows.
    replace (filter _ plugins) with (@nil plugin); [reflexivity|].
    symmetry. induction Hnone as [|p ps Hp _ IH]; [reflexivity|].
    rewrite filter_cons_False by congruence. exact IH.
Qed.

End Union.

Section UnionExamples.

Import ConfiguredForm.

Lemma union_output_computed :
  get_formfields_union Testapp.storage (Testapp.form "contact")
    Testapp.union_plugins Testapp.union_attributes
  = Ok Testapp.union_output.
Proof. vm_compute. reflexivity. Qed.

Lemma union_resolution_order_witness :
  exists p0 rest,
    filter (fun p => is_FormFieldBase p = true) Testapp.union_plugins = p0 :: rest
    /\ Testapp.union_output
       = concat (map (fun p => map (output_pair Testapp.storage p0
                                      Testapp.union_attributes p)
                                   (filter (fun row =>
                                              parent_is (Testapp.form "contact") row = true)
                                           (table p)))
                     (p0 :: rest)).
Proof.
  exact (proj1 (union_resolution_order Testapp.storage (Testapp.form "contact")
                  Testapp.union_plugins Testapp.union_attributes
                  Testapp.union_output union_output_computed)).
Defined.

(** The rows come out plugin by plugin, not sorted by the ordering column:
    the two rows of [Text], of ordering 10 and 30, come before the row of
    [Address], of ordering 20. *)
Lemma union_not_sorted_by_ordering :
  get_formfields_union Testapp.storage (Testapp.form "contact")
    Testapp.mixed_plugins ["ordering"]
  = Ok [ (VStr "first", {[ "ordering" := VInt 10 ]});
         (VStr "last", {[ "ordering" := VInt 30 ]});
         (VStr "home", {[ "ordering" := VInt 20 ]}) ].
Proof. vm_compute. reflexivity. Qed.

Lemma mixed_output_computed :
  get_formfields_union Testapp.storage (Testapp.form "contact")
    Testapp.mixed_plugins Testapp.union_attributes
  = Ok Testapp.mixed_output.
Proof. vm_compute. reflexivity. Qed.

Lemma union_order_presence_arity_witness :
  Forall (fun nd : pyval * gmap string pyval =>
            forall a, a ∈ Testapp.union_attributes -> is_Some (nd.2 !! a))
         Testapp.mixed_output.
Proof.
  exact (proj2 (proj1 (union_order_presence_arity Testapp.storage
                         (Testapp.form "contact")
                         Testapp.mixed_plugins Testapp.union_attributes)
                      Testapp.mixed_output mixed_output_computed)).
Defined.

Lemma union_skips_other_plugins_witness :
  get_formfields_union Testapp.storage (Testapp.form "contact")
    [Testapp.PlainText; Testapp.Duration] Testapp.union_attributes
  = Raise IndexError.
Proof.
  apply (proj1 (proj2 (union_skips_other_plugins Testapp.storage
                         (Testapp.form "contact")
                         [Testapp.PlainText; Testapp.Duration]
                         Testapp.union_attributes))).
  repeat constructor.
Defined.

End UnionExamples.

(** ** FormField: the visibility policy *)

(** Claim C5. [should_show_field] follows the truth table: a field that is
    not visible is never shown; a visible and editable field is always
    shown; a visible field that is not editable is shown exactly when
    [is_update] is false. *)
Theorem should_show_field_truth_table (self : FormField.t) (is_update : bool) :
  FormField.should_show_field self is_update =
  match FormField.is_visible self, FormField.is_editable self, is_update with
  | false, _, _ => false
  | true, true, _ => true
  | true, false, false => true
  | true, false, true => false
  end.
Proof.
  unfold FormField.should_show_field.
  destruct (FormField.is_visible self), (FormField.is_editable self), is_update;
    reflexivity.
Qed.

(** ** SimpleFieldBase: choice parsing *)

Section Choices.

Import SimpleFieldBase.

Lemma _choice_bare value :
  string_existsb (Ascii.eqb PIPE) value = false ->
  _choice value = (value, value).
Proof. intros H. unfold _choice. now rewrite split_once_absent. Qed.

Lemma _choice_piped a b :
  string_existsb (Ascii.eqb PIPE) a = false ->
  _choice (a +:+ String PIPE b) = (strip a, strip b).
Proof. intros H. unfold _choice. now rewrite split_once_first. Qed.

(** Claim C6. The choices text made of the lines [lines] (joined by line
    feeds) is parsed line by line, empty lines dropped: a line without a
    pipe gives [(line, line)]; a line [a|b], where [a] has no pipe, gives
    the two parts around that first pipe, each with surrounding whitespace
    removed; the line "a|Label A" gives ("a", "Label A") and the line
    "solo" gives ("solo", "solo"). *)
Theorem get_choices_lines :
  (forall (self : t) (lines : list string),
      choices self = join NL lines ->
      Forall (fun l => no_linebreak l = true) lines ->
      get_choices self = map _choice (filter (fun l => nonempty l = true) lines))
  /\ (forall value,
      string_existsb (Ascii.eqb PIPE) value = false ->
      _choice value = (value, value))
  /\ (forall a b,
      string_existsb (Ascii.eqb PIPE) a = false ->
      _choice (a +:+ String PIPE b) = (strip a, strip b))
  /\ _choice "a|Label A" = ("a", "Label A")
  /\ _choice "solo" = ("solo", "solo")
  /\ (forall self, choices self = EmptyString -> get_choices self = []).
Proof.
  repeat split.
  - intros self lines Htext Hlines. unfold get_choices.
    now rewrite Htext, splitlines_join.
  - apply _choice_bare.
  - apply _choice_piped.
  - intros self Htext. unfold get_choices. now rewrite Htext.
Qed.

Lemma get_choices_lines_witness :
  get_choices (Testapp.select_row "a") = [("a", "Label A"); ("solo", "solo")].
Proof.
  exact (proj1 get_choices_lines (Testapp.select_row "a")
           ["a|Label A"; ""; "solo"] eq_refl
           ltac:(repeat constructor)).
Defined.

End Choices.

(** ** SimpleFieldBase: validation of the default value *)

Section DefaultValue.

Import SimpleFieldBase.

Lemma fold_insert_lookup_None {V : Type} (pairs : list (string * V)) (d : gmap string V) k :
  fold_left (fun d kv => <[kv.1 := kv.2]> d) pairs d !! k = None
  <-> (k ∉ pairs.*1) /\ d !! k = None.
Proof.
  revert d. induction pairs as [|[k' v] pairs IH]; intros d; simpl.
  - split; [intros H; split; [apply not_elem_of_nil | exact H] | tauto].
  - rewrite IH, not_elem_of_cons, lookup_insert_None.
    simpl. intuition congruence.
Qed.

Lemma dict_of_pairs_lookup_None {V : Type} (pairs : list (string * V)) k :
  dict_of_pairs pairs !! k = None <-> k ∉ pairs.*1.
Proof.
  unfold dict_of_pairs. rewrite fold_insert_lookup_None, lookup_empty. tauto.
Qed.

Lemma nonempty_true s : nonempty s = true <-> s <> EmptyString.
Proof. destruct s; simpl; split; congruence. Qed.

Variable super_clean_fields : t -> list string -> result unit.

(** Claim C7, amended. Once the inherited cleaning has passed, [clean_fields]
    raises a validation failure naming the default value exactly when
    [choices] and [default_value] are both non-empty and the default is not
    among the parsed choice values, and succeeds otherwise. The failure is
    attached to the field [default_value] unless that field is among the
    excluded ones, in which case it is attached to no field. *)
Theorem clean_fields_default_value (self : t) (exclude : list string) :
  super_clean_fields self exclude = Ok tt ->
  (default_refused self ->
     clean_fields super_clean_fields self exclude
     = Raise (ValidationError
                (if bool_decide ("default_value" ∈ exclude) then None
                 else Some "default_value")
                (default_value_message (default_value self))))
  /\ (~ default_refused self ->
     clean_fields super_clean_fields self exclude = Ok tt).
Proof.
  intros Hsuper. unfold clean_fields, default_refused. rewrite Hsuper. simpl.
  rewrite <- !nonempty_true, <- dict_of_pairs_lookup_None.
  split.
  - intros (-> & -> & Hmiss). rewrite bool_decide_true by assumption. simpl.
    unfold validation_error. now case_bool_decide.
  - intros Hok.
    destruct (nonempty (choices self)); [|reflexivity].
    destruct (nonempty (default_value self)); [|reflexivity].
    case_bool_decide; [|reflexivity]. exfalso. apply Hok. now repeat split.
Qed.

End DefaultValue.

Lemma clean_fields_default_value_witness :
  SimpleFieldBase.clean_fields (fun _ _ => Ok tt) (Testapp.select_row "b") []
  = Raise (ValidationError (Some "default_value")
             (SimpleFieldBase.default_value_message "b"))
  /\ SimpleFieldBase.clean_fields (fun _ _ => Ok tt) (Testapp.select_row "solo") []
     = Ok tt.
Proof.
  split.
  - apply (proj1 (clean_fields_default_value (fun _ _ => Ok tt)
                    (Testapp.select_row "b") [] eq_refl)).
    repeat split; [discriminate | discriminate |].
    apply (bool_decide_unpack _). reflexivity.
  - apply (proj2 (clean_fields_default_value (fun _ _ => Ok tt)
                    (Testapp.select_row "solo") [] eq_refl)).
    intros (_ & _ & H). apply H.
    apply (bool_decide_unpack _). reflexivity.
Defined.

(** The claim as stated fails when [default_value] is excluded: the default
    "b" is not among the choices "a" and "solo", and the failure raised is
    attached to no field. *)
Lemma clean_fields_excluded_default_value :
  SimpleFieldBase.get_choices (Testapp.select_row "b")
  = [("a", "Label A"); ("solo", "solo")]
  /\ SimpleFieldBase.clean_fields (fun _ _ => Ok tt) (Testapp.select_row "b")
       ["default_value"]
     = Raise (ValidationError None (SimpleFieldBase.default_value_message "b")).
Proof. split; reflexivity. Qed.

(** * Further properties *)

(** ** FormType: caching and construction *)

Section FormTypeAccess.

Import FormType.

Variable modules : gmap string (gmap string pyval).
Variable class_attr : string -> option pyval.

(** What [__getattr__] returns on success is what it stored. *)
Lemma __getattr___stores (self : t) attr v self' log :
  __getattr__ modules self attr = (Ok v, self', log) ->
  self' = setattr self attr v.
Proof.
  unfold __getattr__. destruct (Type___getattr__ self attr) as [value|e]; [|congruence].
  destruct (as_str value) as [s|]; [destruct (re_match_dotted s)|];
    try (intros [= <- <- _]; reflexivity).
  destruct (suppress_ModuleNotFoundError _ _); [|congruence].
  intros [= <- <- _]. reflexivity.
Qed.

(** An access that succeeded can be repeated: the second access returns the
    same value, leaves the instance as it is and imports nothing. *)
Theorem getattr_memoized (self : t) attr v self' log :
  getattr modules class_attr self attr = (Ok v, self', log) ->
  getattr modules class_attr self' attr = (Ok v, self', []).
Proof.
  unfold getattr at 1.
  destruct (__dict__ self !! attr) as [v0|] eqn:Hdict.
  - intros [= <- <- _]. unfold getattr. now rewrite Hdict.
  - destruct (class_attr attr) as [v0|] eqn:Hcls.
    + intros [= <- <- _]. unfold getattr. now rewrite Hdict, Hcls.
    + intros H. rewrite (__getattr___stores _ _ _ _ _ H). apply getattr_cached.
Qed.

(** An access never touches the items of the dict, changes the instance
    [__dict__] under the accessed name only, and changes nothing at all
    when it raises. *)
Theorem getattr_frame (self : t) attr :
  items (getattr modules class_attr self attr).1.2 = items self
  /\ (forall other, other <> attr ->
        __dict__ (getattr modules class_attr self attr).1.2 !! other
        = __dict__ self !! other)
  /\ (forall e, (getattr modules class_attr self attr).1.1 = Raise e ->
        (getattr modules class_attr self attr).1.2 = self).
Proof.
  unfold getattr.
  destruct (__dict__ self !! attr); [repeat split|].
  destruct (class_attr attr); [repeat split|].
  unfold __getattr__. destruct (Type___getattr__ self attr) as [value|e]; [|repeat split].
  destruct (match as_str value with
            | Some s => if re_match_dotted s
                        then (suppress_ModuleNotFoundError (import_string modules s) value, [s])
                        else (Ok value, [])
            | None => (Ok value, [])
            end) as [[v|e] log]; simpl.
  - split; [reflexivity|]. split; [|discriminate].
    intros other Hne. now apply lookup_insert_ne.
  - repeat split.
Qed.

Lemma getattr_plain (self : t) attr v :
  items self !! attr = Some v ->
  __dict__ self !! attr = None ->
  class_attr attr = None ->
  (forall s, v = VStr s -> re_match_dotted s = false) ->
  getattr modules class_attr self attr = (Ok v, setattr self attr v, []).
Proof.
  intros Hitem Hdict Hcls Hplain.
  unfold getattr, __getattr__, Type___getattr__. rewrite Hdict, Hcls, Hitem.
  destruct v; simpl; try reflexivity.
  now rewrite (Hplain s eq_refl).
Qed.

(** On a first access to a name whose stored value is no str that matches
    the dotted pattern, nothing is imported: a stored value is returned and
    cached as it is, and a name that is no key of the dict raises
    [AttributeError] and leaves the instance as it is. *)
Theorem getattr_without_import (self : t) attr :
  __dict__ self !! attr = None ->
  class_attr attr = None ->
  (forall s, items self !! attr = Some (VStr s) -> re_match_dotted s = false) ->
  getattr modules class_attr self attr =
  match items self !! attr with
  | Some v => (Ok v, setattr self attr v, [])
  | None => (Raise AttributeError, self, [])
  end.
Proof.
  intros Hdict Hcls Hplain.
  destruct (items self !! attr) as [v|] eqn:Hitem.
  - apply getattr_plain; try assumption. intros s ->. now apply Hplain.
  - unfold getattr, __getattr__, Type___getattr__. now rewrite Hdict, Hcls, Hitem.
Qed.

End FormTypeAccess.

Lemma getattr_memoized_witness :
  FormType.getattr Testapp.modules Testapp.no_class_attr
    (FormType.setattr Testapp.other_fields "form_class" (VObj 22)) "form_class"
  = (Ok (VObj 22), FormType.setattr Testapp.other_fields "form_class" (VObj 22), []).
Proof.
  apply (getattr_memoized Testapp.modules Testapp.no_class_attr
           Testapp.other_fields "form_class" (VObj 22) _
           ["testapp.forms.OtherFieldsForm"]).
  vm_compute. reflexivity.
Defined.

Lemma getattr_without_import_witness :
  FormType.getattr Testapp.modules Testapp.no_class_attr Testapp.contact "key"
  = (Ok (VStr "contact"), FormType.setattr Testapp.contact "key" (VStr "contact"), [])
  /\ FormType.getattr Testapp.modules Testapp.no_class_attr Testapp.other_fields "process"
     = (Raise AttributeError, Testapp.other_fields, []).
Proof.
  split.
  - apply (getattr_without_import Testapp.modules Testapp.no_class_attr
             Testapp.contact "key"); try reflexivity.
    intros s [= <-]. reflexivity.
  - apply (getattr_without_import Testapp.modules Testapp.no_class_attr
             Testapp.other_fields "process"); try reflexivity.
    intros s [=].
Defined.

Lemma getattr_frame_witness :
  FormType.__dict__
    (FormType.getattr Testapp.modules Testapp.no_class_attr
       Testapp.contact "validate").1.2 !! "key"
  = FormType.__dict__ Testapp.contact !! "key".
Proof.
  apply (proj1 (proj2 (getattr_frame Testapp.modules Testapp.no_class_attr
                         Testapp.contact "validate"))).
  discriminate.
Defined.

Section FormTypeInit.

Import FormType.

Variable forms_Form default_validate : pyval.

Lemma setdefault_lookup {V : Type} key (value : V) (d : gmap string V) k :
  setdefault key value d !! k
  = if decide (k = key) then Some (default value (d !! key)) else d !! k.
Proof.
  unfold setdefault. destruct (d !! key) as [v|] eqn:Hd; simpl.
  - case_decide; [now subst | reflexivity].
  - case_decide; [subst; apply lookup_insert_eq | now apply lookup_insert_ne].
Qed.

Lemma __init___kwargs_lookup (kwargs : gmap string pyval) k :
  setdefault "validate" default_validate
    (setdefault "form_class" forms_Form kwargs) !! k
  = if decide (k = "validate")
    then Some (default default_validate (kwargs !! "validate"))
    else if decide (k = "form_class")
         then Some (default forms_Form (kwargs !! "form_class"))
         else kwargs !! k.
Proof.
  rewrite setdefault_lookup. case_decide.
  - rewrite setdefault_lookup. now case_decide.
  - apply setdefault_lookup.
Qed.

(** The constructor succeeds exactly when [key], [label] and [regions] are
    given. The instance then holds every argument as given, [form_class]
    and [validate] hold the defaults unless they were given, and nothing
    is cached yet. *)
Theorem __init___required (kwargs : gmap string pyval) :
  (is_Some (kwargs !! "key") /\ is_Some (kwargs !! "label")
   /\ is_Some (kwargs !! "regions") ->
   exists self,
     __init__ forms_Form default_validate kwargs = Ok self
     /\ (forall k v, kwargs !! k = Some v -> items self !! k = Some v)
     /\ items self !! "form_class" = Some (default forms_Form (kwargs !! "form_class"))
     /\ items self !! "validate" = Some (default default_validate (kwargs !! "validate"))
     /\ __dict__ self = ∅)
  /\ (~ (is_Some (kwargs !! "key") /\ is_Some (kwargs !! "label")
         /\ is_Some (kwargs !! "regions")) ->
      __init__ forms_Form default_validate kwargs = Raise TypeError).
Proof.
  unfold __init__, _REQUIRED. split.
  - intros (Hk & Hl & Hr). eexists. rewrite bool_decide_true.
    + split; [reflexivity|]. simpl. repeat split.
      * intros k v Hkv. rewrite __init___kwargs_lookup.
        repeat case_decide; subst; now rewrite Hkv.
      * now rewrite __init___kwargs_lookup.
      * now rewrite __init___kwargs_lookup.
    + repeat constructor; rewrite __init___kwargs_lookup; simpl; eauto.
  - intros Hmissing. rewrite bool_decide_false; [reflexivity|].
    intros Hall. apply Hmissing.
    repeat (apply Forall_cons in Hall as [? Hall]).
    rewrite !__init___kwargs_lookup in *. simpl in *. auto.
Qed.

End FormTypeInit.

Lemma __init___required_witness :
  exists self,
    FormType.__init__ (VObj 1) (VObj 2)
      (<["key" := VStr "contact"]> (<["label" := VStr "contact form"]>
       (<["regions" := VList []]> ∅))) = Ok self
    /\ FormType.items self !! "form_class" = Some (VObj 1)
    /\ FormType.items self !! "validate" = Some (VObj 2).
Proof.
  destruct (proj1 (__init___required (VObj 1) (VObj 2)
              (<["key" := VStr "contact"]> (<["label" := VStr "contact form"]>
               (<["regions" := VList []]> ∅)))))
    as (self & Hinit & _ & Hform & Hval & _).
  - repeat split; eexists; reflexivity.
  - exists self. repeat split; assumption.
Defined.

(** ** ConfiguredForm: preparation and regions of a known form type *)

Section KnownRegions.

Import ConfiguredForm.

Variable modules : gmap string (gmap string pyval).
Variable class_attr : string -> option pyval.
Variable callable : pyval -> bool.
Variable call : pyval -> t -> result pyval.

Lemma choices_of_items (forms : list FormType.t) :
  Forall (fun ft => is_Some (FormType.items ft !! "key")
                    /\ is_Some (FormType.items ft !! "label")) forms ->
  choices_of forms
  = Ok (map (fun ft => (default VNone (FormType.items ft !! "key"),
                        default VNone (FormType.items ft !! "label"))) forms).
Proof.
  induction 1 as [|ft forms ([k Hk] & [l Hl]) _ IH]; [reflexivity|].
  simpl. unfold FormType.getitem. rewrite Hk, Hl. simpl. now rewrite IH.
Qed.

Lemma types_of_plain_keys (forms : list FormType.t) :
  class_attr "key" = None ->
  Forall (fun ft => exists k, FormType.items ft !! "key" = Some (VStr k)
                      /\ FormType.re_match_dotted k = false
                      /\ FormType.__dict__ ft !! "key" = None) forms ->
  types_of modules class_attr forms
  = Ok (map (fun ft => (default VNone (FormType.items ft !! "key"),
                        FormType.setattr ft "key"
                          (default VNone (FormType.items ft !! "key")))) forms).
Proof.
  intros Hcls. induction 1 as [|ft forms (k & Hk & Hre & Hd) _ IH]; [reflexivity|].
  simpl.
  rewrite (getattr_plain modules class_attr ft "key" (VStr k) Hk Hd Hcls)
    by (intros s [= <-]; exact Hre).
  simpl. rewrite IH, Hk. reflexivity.
Qed.

(** A concrete class whose form types have str keys that are no dotted
    paths is prepared without failure: the choices are the pairs of key and
    label in the order of [FORMS], and [types] holds each form type, with
    its key cached, under its key. *)
Theorem fill_form_choices_plain_keys (cls : sender) :
  is_ConfiguredForm cls = true ->
  abstract cls = false ->
  class_attr "key" = None ->
  Forall (fun ft => exists k, FormType.items ft !! "key" = Some (VStr k)
                      /\ FormType.re_match_dotted k = false
                      /\ FormType.__dict__ ft !! "key" = None
                      /\ is_Some (FormType.items ft !! "label")) (FORMS cls) ->
  fill_form_choices modules class_attr cls
  = Ok (Some
      {| form_type_choices :=
           map (fun ft => (default VNone (FormType.items ft !! "key"),
                           default VNone (FormType.items ft !! "label"))) (FORMS cls);
         types :=
           map (fun ft => (default VNone (FormType.items ft !! "key"),
                           FormType.setattr ft "key"
                             (default VNone (FormType.items ft !! "key"))))
               (FORMS cls) |}).
Proof.
  intros Hsub Habs Hcls Hforms. unfold fill_form_choices.
  rewrite Hsub, Habs. simpl.
  rewrite choices_of_items, types_of_plain_keys; [reflexivity | assumption | |].
  - eapply Forall_impl; [exact Hforms|]. intros ft (k & ? & ? & ? & ?). eauto.
  - eapply Forall_impl; [exact Hforms|]. intros ft (k & Hk & _ & _ & Hl).
    rewrite Hk. split; [eauto | exact Hl].
Qed.

(** The form type stored last under a key is the one a lookup finds. *)
Lemma types_get_last (before after : list (pyval * FormType.t)) key ft :
  Forall (fun kv : pyval * FormType.t => kv.1 <> VStr key) after ->
  types_get (before ++ (VStr key, ft) :: after)%list key = Some ft.
Proof.
  intros Hafter. unfold types_get.
  rewrite filter_app, filter_cons_True by reflexivity.
  replace (filter _ after) with (@nil (pyval * FormType.t)).
  - now rewrite last_snoc.
  - symmetry. induction Hafter as [|[k ty] tys Hk _ IH]; [reflexivity|].
    rewrite filter_cons_False; [exact IH|].
    simpl in *. destruct k; simpl; congruence.
Qed.

(** On a prepared class, the form type that decides the regions of a form
    is the last one of [types] stored under its [form_type]. When the
    [regions] of that form type is a value that needs no import, the
    property returns it, or calls it with the form when it is callable.
    When it is a dotted path into a module that lacks the attribute, the
    [ImportError] is not caught. *)
Theorem regions_known_form_type (p : prepared) (self : t)
    (before after : list (pyval * FormType.t)) (ft : FormType.t) (r : pyval) :
  types p = (before ++ (VStr (form_type self), ft) :: after)%list ->
  Forall (fun kv : pyval * FormType.t => kv.1 <> VStr (form_type self)) after ->
  FormType.items ft !! "regions" = Some r ->
  FormType.__dict__ ft !! "regions" = None ->
  class_attr "regions" = None ->
  ((forall s, r = VStr s -> FormType.re_match_dotted s = false) ->
   regions modules class_attr callable call (Some p) self
   = if callable r then call r self else Ok r)
  /\ (forall s, r = VStr s -> FormType.re_match_dotted s = true ->
      FormType.import_string modules s = Raise ImportError ->
      regions modules class_attr callable call (Some p) self = Raise ImportError).
Proof.
  intros Htypes Hafter Hr Hd Hcls.
  unfold regions, type_regions. rewrite Htypes, types_get_last by assumption.
  split.
  - intros Hplain.
    now rewrite (getattr_plain modules class_attr ft "regions" r Hr Hd Hcls Hplain).
  - intros s -> Hre Himp.
    rewrite (getattr_first modules class_attr ft "regions" s Hr Hd Hcls Hre), Himp.
    reflexivity.
Qed.

End KnownRegions.

Lemma fill_form_choices_plain_keys_witness :
  ConfiguredForm.fill_form_choices Testapp.modules Testapp.no_class_attr
    Testapp.ConfiguredForm
  = Ok (Some Testapp.prepared).
Proof.
  apply (fill_form_choices_plain_keys Testapp.modules Testapp.no_class_attr
           Testapp.ConfiguredForm eq_refl eq_refl eq_refl).
  repeat constructor.
  - exists "contact". repeat split; try reflexivity. eexists; reflexivity.
  - exists "other-fields". repeat split; try reflexivity. eexists; reflexivity.
Defined.

Lemma regions_known_form_type_witness :
  ConfiguredForm.regions Testapp.modules Testapp.no_class_attr
    (fun _ => false) (fun v _ => Ok v) (Some Testapp.prepared) (Testapp.form "contact")
  = Ok (VList [VObj 10]).
Proof.
  apply (proj1 (regions_known_form_type Testapp.modules Testapp.no_class_attr
                  (fun _ => false) (fun v _ => Ok v)
                  Testapp.prepared (Testapp.form "contact") []
                  [(VStr "other-fields",
                    FormType.setattr Testapp.other_fields "key" (VStr "other-fields"))]
                  (FormType.setattr Testapp.contact "key" (VStr "contact"))
                  (VList [VObj 10])
                  eq_refl ltac:(repeat constructor; discriminate)
                  eq_refl eq_refl eq_refl)).
  intros s [=].
Defined.

(** ** NameField: the generated name *)

Section GeneratedNames.

Import NameField.

Lemma name_fullmatch_field_token suffix :
  string_forallb (fun c => is_lower c || is_digit c) suffix = true ->
  name_fullmatch ("field_" +:+ suffix) = true.
Proof.
  intros H. unfold name_fullmatch. simpl.
  induction suffix as [|c suffix IH]; [reflexivity|].
  simpl in *. apply andb_true_iff in H as [Hc Hs].
  unfold is_name_char at 1. rewrite Hc. simpl. now apply IH.
Qed.

Lemma to_python_token draws :
  exists suffix,
    "field_" +:+ get_random_string 10 RANDOM_STRING_CHARS draws = "field_" +:+ suffix
    /\ String.length suffix = 10%nat
    /\ string_forallb (fun c => is_lower c || is_digit c) suffix = true.
Proof.
  exists (get_random_string 10 RANDOM_STRING_CHARS draws).
  split; [reflexivity|]. unfold get_random_string. split.
  - now rewrite string_of_list_length, length_map, length_seq.
  - rewrite string_of_list_forallb, forallb_forall.
    intros c Hc. apply in_map_iff in Hc as (i & <- & _). apply choice_in_class.
Qed.

(** Whatever the random draws, the name generated for an empty value passes
    the field's validator and is sixteen characters long, within the
    fifty the field allows; and normalising a normalised name changes
    nothing, so that no second name is generated. *)
Theorem generated_name_validates (draws draws' : nat -> nat) (value : option string) :
  validator (to_python None draws) = Ok tt
  /\ validator (to_python (Some EmptyString) draws) = Ok tt
  /\ String.length (to_python None draws) = 16%nat
  /\ to_python (Some (to_python value draws)) draws' = to_python value draws.
Proof.
  destruct (to_python_token draws) as (suffix & Heq & Hlen & Hcls).
  assert (validator ("field_" +:+ get_random_string 10 RANDOM_STRING_CHARS draws) = Ok tt)
    as Hval.
  { rewrite Heq. unfold validator, anchored.
    now rewrite name_fullmatch_field_token. }
  repeat split; try exact Hval.
  destruct value as [[|c s]|]; reflexivity.
Qed.

End GeneratedNames.

(** ** ConfiguredForm: more on the union query *)

Section UnionMore.

Import ConfiguredForm.

Implicit Types (p : plugin) (row : gmap string pyval) (self : t).

(** The mapping of a pair holds the attributes and nothing else. *)
Lemma attribute_dict_lookup (g : string -> pyval) (attributes : list string) a :
  dict_of_pairs (map (fun a => (a, g a)) attributes) !! a
  = if decide (a ∈ attributes) then Some (g a) else None.
Proof.
  case_decide as Ha.
  - unfold dict_of_pairs.
    apply (fold_insert_agree (fun kv : string * pyval => kv)).
    + intros kv Hkv Hk. apply list_elem_of_fmap in Hkv as (a' & -> & _).
      simpl in *. now subst.
    + exists (a, g a). split; [|reflexivity]. apply list_elem_of_fmap. eauto.
  - apply dict_of_pairs_lookup_None. rewrite <- list_fmap_compose.
    intros Hin. apply list_elem_of_fmap in Hin as (a' & -> & Ha'). now apply Ha.
Qed.

Lemma existsb_same_members {A : Type} (f : A -> bool) (l l' : list A) :
  (forall a, a ∈ l <-> a ∈ l') -> existsb f l = existsb f l'.
Proof.
  intros Hsame.
  destruct (existsb f l) eqn:Hl, (existsb f l') eqn:Hl'; try reflexivity.
  - apply existsb_exists in Hl as (a & Ha & Hf).
    apply list_elem_of_In, Hsame, list_elem_of_In in Ha.
    rewrite <- Hl'. symmetry. apply existsb_exists. eauto.
  - apply existsb_exists in Hl' as (a & Ha & Hf).
    apply list_elem_of_In, Hsame, list_elem_of_In in Ha.
    rewrite <- Hl. apply existsb_exists. eauto.
Qed.

Lemma refused_same_attributes b (ps : list plugin) (attributes attributes' : list string) :
  (forall a, a ∈ attributes <-> a ∈ attributes') ->
  refused b ps attributes = refused b ps attributes'.
Proof.
  intros Hsame. destruct ps as [|p0 [|p1 ps]]; try reflexivity.
  unfold refused. f_equal. now apply existsb_same_members.
Qed.

Lemma output_pair_same_attributes b p0 p row (attributes attributes' : list string) :
  (forall a, a ∈ attributes <-> a ∈ attributes') ->
  output_pair b p0 attributes p row = output_pair b p0 attributes' p row.
Proof.
  intros Hsame. unfold output_pair. f_equal. apply map_eq. intros a.
  rewrite !(attribute_dict_lookup
              (fun a => fetch b (p0, annotation p0 a) (p, annotation p a) row)).
  destruct (decide (a ∈ attributes)) as [Ha|Ha], (decide (a ∈ attributes')) as [Ha'|Ha'];
    try reflexivity; exfalso; apply Hsame in Ha || apply Hsame in Ha'; contradiction.
Qed.

(** The order of the requested attributes and their repetitions do not
    matter: two lists with the same members give the same result. *)
Theorem union_attributes_as_set b self (plugins : list plugin)
    (attributes attributes' : list string) :
  (forall a, a ∈ attributes <-> a ∈ attributes') ->
  get_formfields_union b self plugins attributes
  = get_formfields_union b self plugins attributes'.
Proof.
  intros Hsame. rewrite !get_formfields_union_rows.
  destruct (filter _ plugins) as [|p0 ps]; [reflexivity|].
  rewrite (refused_same_attributes b (p0 :: ps) attributes attributes' Hsame).
  destruct (refused b (p0 :: ps) attributes'); [reflexivity|]. do 2 f_equal.
  apply list_fmap_ext. intros _ p _. apply list_fmap_ext. intros _ row _.
  now apply output_pair_same_attributes.
Qed.


(** With one [FormFieldBase] plugin among [plugins] no union is built: the
    query is the plain query of that plugin, which no storage refuses.
    With two or more, the query raises [DatabaseError] when the storage
    refuses the union over their models. *)
Theorem union_one_field_plugin b self (plugins : list plugin)
    (attributes : list string) :
  (forall p,
      filter (fun p => is_FormFieldBase p = true) plugins = [p] ->
      get_formfields_union b self plugins attributes
      = Ok (map (output_pair b p attributes p)
                (filter (fun row => parent_is self row = true) (table p))))
  /\ (forall p q rest,
        filter (fun p => is_FormFieldBase p = true) plugins = p :: q :: rest ->
        refuses_operands b (p :: q :: rest) = true ->
        get_formfields_union b self plugins attributes = Raise DatabaseError).
Proof.
  split.
  - intros p Hp. rewrite get_formfields_union_rows, Hp. cbn.
    now rewrite app_nil_r.
  - intros p q rest Hp Hrefuses. rewrite get_formfields_union_rows, Hp.
    unfold refused. now rewrite Hrefuses.
Qed.

End UnionMore.

Section UnionMoreExamples.

Import ConfiguredForm.

Lemma union_attributes_as_set_witness :
  get_formfields_union Testapp.storage (Testapp.form "contact")
    Testapp.union_plugins
    ["css_class"; "is_collapsible"; "TYPE"; "label"; "label"]
  = Ok Testapp.union_output.
Proof.
  rewrite <- union_output_computed.
  apply (union_attributes_as_set Testapp.storage (Testapp.form "contact")
           Testapp.union_plugins
           ["css_class"; "is_collapsible"; "TYPE"; "label"; "label"]
           Testapp.union_attributes).
  intros a. unfold Testapp.union_attributes.
  rewrite !elem_of_cons, elem_of_nil. tauto.
Defined.


Lemma union_one_field_plugin_witness :
  get_formfields_union Testapp.strict_storage (Testapp.form "contact")
    [Testapp.PlainText; Testapp.Text] ["label"]
  = Ok [ (VStr "first", {[ "label" := VStr "First name" ]});
         (VStr "last", {[ "label" := VStr "Last name" ]}) ]
  /\ get_formfields_union Testapp.strict_storage (Testapp.form "contact")
       Testapp.mixed_plugins ["label"]
     = Raise DatabaseError.
Proof.
  split.
  - exact (proj1 (union_one_field_plugin Testapp.strict_storage
                    (Testapp.form "contact") [Testapp.PlainText; Testapp.Text]
                    ["label"]) Testapp.Text eq_refl).
  - exact (proj2 (union_one_field_plugin Testapp.strict_storage
                    (Testapp.form "contact") Testapp.mixed_plugins ["label"])
                 Testapp.Text Testapp.Address [] eq_refl eq_refl).
Defined.

End UnionMoreExamples.

(** ** SimpleFieldBase: choices written and read back *)

Section ChoicesRoundTrip.

Import SimpleFieldBase.

Lemma string_existsb_app (f : ascii -> bool) (a b : string) :
  string_existsb f (a +:+ b) = string_existsb f a || string_existsb f b.
Proof. induction a as [|c a IH]; simpl; [reflexivity|]. now rewrite IH, orb_assoc. Qed.

Lemma nonempty_app_cons (a : string) c (b : string) :
  nonempty (a +:+ String c b) = true.
Proof. destruct a; reflexivity. Qed.

(** Lines of the form [value|label] are parsed into the trimmed parts. *)
Lemma get_choices_of_lines (self : t) (pairs : list (string * string)) :
  choices self = join NL (map (fun vl => vl.1 +:+ String PIPE vl.2) pairs) ->
  Forall (fun vl : string * string =>
            string_existsb (Ascii.eqb PIPE) vl.1 = false
            /\ no_linebreak vl.1 = true /\ no_linebreak vl.2 = true) pairs ->
  get_choices self = map (fun vl => (strip vl.1, strip vl.2)) pairs.
Proof.
  intros Htext Hpairs. unfold get_choices. rewrite Htext, splitlines_join.
  - clear Htext.
    induction Hpairs as [|[v l] pairs (Hpipe & _ & _) _ IH]; [reflexivity|].
    cbn [map]. rewrite filter_cons_True by apply nonempty_app_cons.
    cbn [map]. rewrite IH. f_equal. now apply _choice_piped.
  - apply Forall_fmap. eapply Forall_impl; [exact Hpairs|].
    intros [v l] (_ & Hv & Hl). unfold no_linebreak in *. simpl in *.
    rewrite string_existsb_app. simpl.
    apply negb_true_iff in Hv, Hl. now rewrite Hv, Hl.
Qed.

(** Writing choices down one per line as [value|label] and parsing the
    text gives the choices back, provided that no value contains a pipe,
    that no value or label contains a line boundary, and that none has
    whitespace at either end. *)
Theorem get_choices_round_trip (self : t) (pairs : list (string * string)) :
  choices self = join NL (map (fun vl => vl.1 +:+ String PIPE vl.2) pairs) ->
  Forall (fun vl : string * string =>
            string_existsb (Ascii.eqb PIPE) vl.1 = false
            /\ no_linebreak vl.1 = true /\ no_linebreak vl.2 = true
            /\ strip vl.1 = vl.1 /\ strip vl.2 = vl.2) pairs ->
  get_choices self = pairs.
Proof.
  intros Htext Hpairs. rewrite (get_choices_of_lines self pairs Htext).
  - clear Htext.
    induction Hpairs as [|[v l] pairs (_ & _ & _ & Hv & Hl) _ IH]; [reflexivity|].
    simpl in *. now rewrite Hv, Hl, IH.
  - eapply Forall_impl; [exact Hpairs|]. intros vl (? & ? & ? & _).
    repeat split; assumption.
Qed.

End ChoicesRoundTrip.

Lemma get_choices_round_trip_witness :
  SimpleFieldBase.get_choices
    {| SimpleFieldBase.base := Testapp.field "size" "Size";
       SimpleFieldBase.type := "radio";
       SimpleFieldBase.choices := join NL ["s|Small"; "|None of these"; "xl|Extra | large"];
       SimpleFieldBase.placeholder := ""; SimpleFieldBase.default_value := "";
       SimpleFieldBase.max_length := None |}
  = [("s", "Small"); ("", "None of these"); ("xl", "Extra | large")].
Proof.
  apply get_choices_round_trip; [reflexivity|].
  repeat constructor.
Defined.

(** ** SimpleFieldBase: the default value after cleaning *)

Section InitialValue.

Import SimpleFieldBase.

Variable super_clean_fields : t -> list string -> result unit.

Lemma get_initial_eq (self : t) :
  get_initial self
  = if nonempty (default_value self)
    then {[ FormField.name (base self) := VStr (default_value self) ]}
    else ∅.
Proof.
  unfold get_initial.
  destruct (nonempty (default_value self)), (nonempty (choices self)); reflexivity.
Qed.

(** On a row that passed [clean_fields], whatever [get_initial] offers is
    the default value under the name of the row, and when the row has
    choices that value is one of the parsed choice values. *)
Theorem initial_value_after_cleaning (self : t) (exclude : list string) k v :
  clean_fields super_clean_fields self exclude = Ok tt ->
  get_initial self !! k = Some v ->
  k = FormField.name (base self)
  /\ v = VStr (default_value self)
  /\ (choices self <> EmptyString ->
      default_value self ∈ (get_choices self).*1).
Proof.
  intros Hclean Hinit. rewrite get_initial_eq in Hinit.
  destruct (nonempty (default_value self)) eqn:Hdv; [|now rewrite lookup_empty in Hinit].
  apply lookup_singleton_Some in Hinit as [<- <-].
  split; [reflexivity|]. split; [reflexivity|].
  intros Hch. apply nonempty_true in Hch.
  unfold clean_fields in Hclean.
  destruct (super_clean_fields self exclude); [|discriminate]. simpl in Hclean.
  rewrite Hch, Hdv in Hclean. simpl in Hclean.
  case_bool_decide as Hlook; [discriminate|].
  destruct (decide (default_value self ∈ (get_choices self).*1)) as [Hin|Hout];
    [exact Hin|].
  exfalso. apply Hlook. now apply dict_of_pairs_lookup_None.
Qed.

End InitialValue.

Lemma initial_value_after_cleaning_witness :
  "colour" = FormField.name (SimpleFieldBase.base (Testapp.select_row "solo"))
  /\ VStr "solo" = VStr (SimpleFieldBase.default_value (Testapp.select_row "solo"))
  /\ (SimpleFieldBase.choices (Testapp.select_row "solo") <> EmptyString ->
      SimpleFieldBase.default_value (Testapp.select_row "solo")
      ∈ (SimpleFieldBase.get_choices (Testapp.select_row "solo")).*1).
Proof.
  exact (initial_value_after_cleaning (fun _ _ => Ok tt) (Testapp.select_row "solo")
           [] "colour" (VStr "solo") eq_refl eq_refl).
Defined.

(** ** SimpleFieldBase: the fields of a row *)

Ltac get_fields_cases :=
  unfold SimpleFieldBase.get_fields; repeat case_bool_decide.

Ltac in_Type_values :=
  unfold SimpleFieldBase.Type_values; rewrite !elem_of_cons, elem_of_nil.

(** Closes a case in which [type self] is known and a second hypothesis
    contradicts it. *)
Ltac type_clash :=
  exfalso;
  match goal with
  | H : SimpleFieldBase.type ?s = _, H' : SimpleFieldBase.type ?s = _ |- _ => rewrite H in H'; discriminate
  | H : SimpleFieldBase.type ?s = _, H' : SimpleFieldBase.type ?s ∈ _ |- _ =>
      rewrite H in H'; rewrite !elem_of_cons, elem_of_nil in H';
      intuition discriminate
  | H : SimpleFieldBase.type ?s = _, H' : SimpleFieldBase.type ?s ∉ _ |- _ =>
      apply H'; rewrite H; rewrite !elem_of_cons; tauto
  | H : SimpleFieldBase.type ?s = ?a, H' : SimpleFieldBase.type ?s <> ?a |- _ => exact (H' H)
  end.

Section Fields.

Import SimpleFieldBase.

(** [get_fields] builds a field for each of the eleven values of [Type], and
    ends in [ImproperlyConfigured] for any other [type]. *)
Theorem get_fields_handled_types (self : t) (kwargs : gmap string pyval) :
  (type self ∈ Type_values -> exists fields, get_fields self kwargs = Built fields)
  /\ (type self ∉ Type_values ->
      get_fields self kwargs = ImproperlyConfigured (type self)).
Proof.
  get_fields_cases; (split; [intros Hin | intros Hout]);
    try (eexists; reflexivity);
    try reflexivity;
    exfalso;
    try (apply Hout; in_Type_values; tauto).
  revert Hin. in_Type_values. tauto.
Qed.

Lemma get_field_lookup (row : FormField.t) form_class should_show
    (kwargs : gmap string forms.argument) :
  FormField.get_field row form_class should_show kwargs
  = {[ FormField.name row :=
         {| forms.form_class := form_class;
            forms.kwargs :=
              setdefault "help_text" (forms.Arg (VStr (FormField.help_text row)))
                (setdefault "required"
                   (forms.Arg (VBool (if should_show
                                      then FormField.is_required row else false)))
                   (setdefault "label" (forms.Arg (VStr (FormField.label row)))
                      kwargs)) |} ]}.
Proof. reflexivity. Qed.

(** A built mapping has one field, under the name of the row; the field
    carries the label and the help text of the row, and it is required
    exactly when the row is required and shown. *)
Theorem get_fields_one_field (self : t) (kwargs : gmap string pyval) fields :
  get_fields self kwargs = Built fields ->
  exists f,
    fields = {[ FormField.name (base self) := f ]}
    /\ forms.kwargs f !! "label"
       = Some (forms.Arg (VStr (FormField.label (base self))))
    /\ forms.kwargs f !! "help_text"
       = Some (forms.Arg (VStr (FormField.help_text (base self))))
    /\ forms.kwargs f !! "required"
       = Some (forms.Arg (VBool (FormField.is_required (base self)
                                 && FormField.should_show_field (base self) (is_update_of kwargs)))).
Proof.
  get_fields_cases; intros [= <-]; rewrite get_field_lookup;
    (eexists; split; [reflexivity|]); simpl;
    destruct (FormField.should_show_field (base self) (is_update_of kwargs)); rewrite ?andb_true_r, ?andb_false_r;
    repeat split; reflexivity.
Qed.

(** A row that is not shown gets a hidden widget, the one for several
    values when its type takes several values, and is not required. *)
Theorem get_fields_hidden (self : t) (kwargs : gmap string pyval) fields f :
  get_fields self kwargs = Built fields ->
  FormField.should_show_field (base self) (is_update_of kwargs) = false ->
  fields !! FormField.name (base self) = Some f ->
  forms.kwargs f !! "widget"
  = Some (forms.WidgetArg
            (if bool_decide (type self ∈ [SELECT_MULTIPLE; CHECKBOX_SELECT_MULTIPLE])
             then forms.MultipleHiddenInput else forms.HiddenInput))
  /\ forms.kwargs f !! "required" = Some (forms.Arg (VBool false)).
Proof.
  get_fields_cases; intros [= <-] Hshown; rewrite get_field_lookup, lookup_singleton_eq;
    intros [= <-]; simpl; rewrite Hshown;
    first [split; reflexivity | type_clash].
Qed.

(** The choices handed to the field: those parsed from the row for radio
    buttons and for the two types that take several values, the same for a
    dropdown, after a blank choice unless the row is required and has a
    default value, and none for any other type. The blank choice shows the
    placeholder, or the dashes when there is none. *)
Theorem get_fields_choices (self : t) (kwargs : gmap string pyval) fields f :
  get_fields self kwargs = Built fields ->
  fields !! FormField.name (base self) = Some f ->
  forms.kwargs f !! "choices"
  = (if bool_decide (type self = SELECT) then
       Some (forms.ChoicesArg
               (if FormField.is_required (base self) && nonempty (default_value self)
                then get_choices self
                else ("", if nonempty (placeholder self) then placeholder self
                          else "---------") :: get_choices self))
     else if bool_decide (type self ∈ [RADIO; SELECT_MULTIPLE; CHECKBOX_SELECT_MULTIPLE])
     then Some (forms.ChoicesArg (get_choices self))
     else None).
Proof.
  get_fields_cases; intros [= <-]; rewrite get_field_lookup, lookup_singleton_eq;
    intros [= <-]; simpl;
    try reflexivity; try type_clash.
  unfold select_choices, forms.BLANK_CHOICE_DASH.
  destruct (FormField.is_required (base self)), (nonempty (default_value self)),
    (nonempty (placeholder self)); reflexivity.
Qed.

(** Of the keyword arguments only the truth value of [is_update] is looked
    at, and only for a row that is visible and not editable. *)
Theorem get_fields_is_update_only (self : t) (kwargs kwargs' : gmap string pyval) :
  (FormField.is_visible (base self) = true ->
   FormField.is_editable (base self) = false ->
   is_update_of kwargs = is_update_of kwargs') ->
  get_fields self kwargs = get_fields self kwargs'.
Proof.
  intros Hsame.
  assert (FormField.should_show_field (base self) (is_update_of kwargs) = FormField.should_show_field (base self) (is_update_of kwargs')) as Hshown.
  { unfold FormField.should_show_field.
    destruct (FormField.is_visible (base self)); [|reflexivity].
    destruct (FormField.is_editable (base self)); [reflexivity|].
    now rewrite Hsame. }
  unfold get_fields. now rewrite Hshown.
Qed.

End Fields.

Section FieldsExamples.

Import SimpleFieldBase.

Lemma get_fields_handled_types_witness :
  exists fields, get_fields (Testapp.select_row "a") ∅ = Built fields.
Proof.
  apply (proj1 (get_fields_handled_types (Testapp.select_row "a") ∅)).
  unfold Type_values. rewrite !elem_of_cons. tauto.
Defined.

Lemma get_fields_one_field_witness :
  exists f,
    Testapp.built (get_fields (Testapp.select_row "a") ∅) = {[ "colour" := f ]}
    /\ forms.kwargs f !! "label" = Some (forms.Arg (VStr "Colour"))
    /\ forms.kwargs f !! "help_text" = Some (forms.Arg (VStr ""))
    /\ forms.kwargs f !! "required" = Some (forms.Arg (VBool true)).
Proof.
  exact (get_fields_one_field (Testapp.select_row "a") ∅
           (Testapp.built (get_fields (Testapp.select_row "a") ∅)) eq_refl).
Defined.

Lemma get_fields_hidden_witness :
  forms.kwargs (Testapp.field_of Testapp.hidden_row ∅) !! "widget"
  = Some (forms.WidgetArg forms.MultipleHiddenInput)
  /\ forms.kwargs (Testapp.field_of Testapp.hidden_row ∅) !! "required"
     = Some (forms.Arg (VBool false)).
Proof.
  exact (get_fields_hidden Testapp.hidden_row ∅
           (Testapp.built (get_fields Testapp.hidden_row ∅))
           (Testapp.field_of Testapp.hidden_row ∅) eq_refl eq_refl eq_refl).
Defined.

Lemma get_fields_choices_witness :
  forms.kwargs (Testapp.field_of (Testapp.select_row "") ∅) !! "choices"
  = Some (forms.ChoicesArg [("", "---------"); ("a", "Label A"); ("solo", "solo")]).
Proof.
  exact (get_fields_choices (Testapp.select_row "") ∅
           (Testapp.built (get_fields (Testapp.select_row "") ∅))
           (Testapp.field_of (Testapp.select_row "") ∅) eq_refl eq_refl).
Defined.

Lemma get_fields_is_update_only_witness :
  get_fields (Testapp.select_row "a") {[ "is_update" := VBool true ]}
  = get_fields (Testapp.select_row "a") ∅.
Proof.
  apply get_fields_is_update_only. discriminate.
Defined.

End FieldsExamples.

(** ** SimpleFieldBase: rows of a proxy class *)

Section Proxies.

Import SimpleFieldBase.

(** A proxy class carries the type it was made for, an explicit
    [verbose_name] wins over the label of the type, and a row saved as a
    row of the proxy of one of the eleven types is a row [get_fields]
    builds a field for. *)
Theorem proxy_rows_are_handled (cls : class) (type_name : string)
    (type_label : option string) (meta : gmap string pyval)
    (self : t) (kwargs : gmap string pyval) :
  TYPE (proxy cls type_name type_label meta) = Some type_name
  /\ type (save (proxy cls type_name type_label meta) self) = type_name
  /\ Meta (proxy cls type_name type_label meta) !! "verbose_name"
     = match meta !! "verbose_name", type_label with
       | Some v, _ => Some v
       | None, Some l => Some (VStr l)
       | None, None => Meta cls !! "verbose_name"
       end
  /\ Meta (proxy cls type_name type_label meta) !! "proxy" = Some (VBool true)
  /\ (type_name ∈ Type_values ->
      exists fields,
        get_fields (save (proxy cls type_name type_label meta) self) kwargs
        = Built fields).
Proof.
  assert (forall k, k <> "proxy" -> k <> "app_label" ->
            (<["app_label" := VStr (app_label cls)]>
               (<["proxy" := VBool true]> meta)) !! k = meta !! k) as Hother.
  { intros k H1 H2. now rewrite !lookup_insert_ne by congruence. }
  assert ((<["app_label" := VStr (app_label cls)]>
             (<["proxy" := VBool true]> meta)) !! "proxy" = Some (VBool true))
    as Hproxy.
  { rewrite lookup_insert_ne by discriminate. apply lookup_insert_eq. }
  split; [reflexivity|]. split; [reflexivity|]. split; [|split].
  - unfold proxy. cbn [Meta]. rewrite Hother by discriminate.
    destruct (meta !! "verbose_name") as [v|] eqn:Hv; [|destruct type_label as [l|]];
      rewrite lookup_union.
    + rewrite Hother, Hv by discriminate. now destruct (Meta cls !! "verbose_name").
    + rewrite lookup_insert_eq. now destruct (Meta cls !! "verbose_name").
    + rewrite Hother, Hv by discriminate. now destruct (Meta cls !! "verbose_name").
  - unfold proxy. cbn [Meta]. rewrite Hother by discriminate.
    destruct (meta !! "verbose_name") as [v|] eqn:Hv; [|destruct type_label as [l|]];
      rewrite lookup_union.
    + rewrite Hproxy. now destruct (Meta cls !! "proxy").
    + rewrite lookup_insert_ne, Hproxy by discriminate.
      now destruct (Meta cls !! "proxy").
    + rewrite Hproxy. now destruct (Meta cls !! "proxy").
  - intros Hin. simpl. get_fields_cases; try (eexists; reflexivity).
    exfalso. simpl in *. revert Hin. in_Type_values. tauto.
Qed.

End Proxies.

Lemma proxy_rows_are_handled_witness :
  exists fields,
    SimpleFieldBase.get_fields
      (SimpleFieldBase.save
         (SimpleFieldBase.proxy Testapp.SimpleField "radio"
            (Some "radio input field")
            {[ "verbose_name" := VStr "Listen to the radio" ]})
         (Testapp.select_row "a")) ∅
    = SimpleFieldBase.Built fields.
Proof.
  apply (proj2 (proj2 (proj2 (proj2
           (proxy_rows_are_handled Testapp.SimpleField "radio"
              (Some "radio input field")
              {[ "verbose_name" := VStr "Listen to the radio" ]}
              (Testapp.select_row "a") ∅))))).
  unfold SimpleFieldBase.Type_values. rewrite !elem_of_cons. tauto.
Defined.

(** ** FormField: one field and its loader *)

Section FieldAndLoader.

(** [get_field] returns one field, under the name of the row and of the
    class asked for. An argument the caller gives is never replaced; of
    [label], [required] and [help_text], those the caller leaves out are
    taken from the row, [required] being false for a row that is not
    shown. *)
Theorem get_field_keeps_arguments (self : FormField.t) (form_class : forms.field_class)
    (should_show : bool) (kwargs : gmap string forms.argument) :
  exists f,
    FormField.get_field self form_class should_show kwargs
    = {[ FormField.name self := f ]}
    /\ forms.form_class f = form_class
    /\ (forall k a, kwargs !! k = Some a -> forms.kwargs f !! k = Some a)
    /\ (forall k, k ∉ ["label"; "required"; "help_text"] ->
          forms.kwargs f !! k = kwargs !! k)
    /\ forms.kwargs f !! "label"
       = Some (default (forms.Arg (VStr (FormField.label self))) (kwargs !! "label"))
    /\ forms.kwargs f !! "required"
       = Some (default (forms.Arg (VBool (FormField.is_required self && should_show)))
                       (kwargs !! "required"))
    /\ forms.kwargs f !! "help_text"
       = Some (default (forms.Arg (VStr (FormField.help_text self)))
                       (kwargs !! "help_text")).
Proof.
  eexists. split; [reflexivity|]. split; [reflexivity|]. cbn [forms.kwargs].
  assert ((if should_show then FormField.is_required self else false)
          = FormField.is_required self && should_show) as ->
    by (destruct should_show, (FormField.is_required self); reflexivity).
  repeat split.
  - intros k a Hk. rewrite !setdefault_lookup.
    repeat case_decide; subst; rewrite ?setdefault_lookup;
      repeat case_decide; try congruence; now rewrite Hk.
  - intros k Hk. rewrite !elem_of_cons, elem_of_nil in Hk.
    rewrite !setdefault_lookup. repeat case_decide; try reflexivity; tauto.
  - rewrite !setdefault_lookup; repeat case_decide; try congruence; reflexivity.
  - rewrite !setdefault_lookup; repeat case_decide; try congruence;
      rewrite ?setdefault_lookup; repeat case_decide; try congruence; reflexivity.
  - rewrite !setdefault_lookup; repeat case_decide; try congruence;
      rewrite ?setdefault_lookup; repeat case_decide; try congruence; reflexivity.
Qed.

Lemma get_fields_key (self : SimpleFieldBase.t) (kwargs : gmap string pyval) fields :
  SimpleFieldBase.get_fields self kwargs = SimpleFieldBase.Built fields ->
  forall k, is_Some (fields !! k) <-> k = FormField.name (SimpleFieldBase.base self).
Proof.
  get_fields_cases; intros [= <-] k; rewrite get_field_lookup;
    (split; [intros [f Hf]; now apply lookup_singleton_Some in Hf
            | intros ->; rewrite lookup_singleton_eq; eauto]).
Qed.

(** A row of a simple field has one loader. On any data it reports the
    name and the label of the row and, as the value, what the data holds
    under the key of the field [get_fields] built for the row, [None]
    when the data holds nothing there; no other key of the data is
    looked at. *)
Theorem loader_reads_its_field (self : SimpleFieldBase.t)
    (kwargs : gmap string pyval) fields :
  SimpleFieldBase.get_fields self kwargs = SimpleFieldBase.Built fields ->
  exists loader,
    FormField.get_loaders (SimpleFieldBase.base self) = [loader]
    /\ forall data,
         loader data !! "name"
         = Some (VStr (FormField.name (SimpleFieldBase.base self)))
         /\ loader data !! "label"
            = Some (VStr (FormField.label (SimpleFieldBase.base self)))
         /\ (forall k, is_Some (fields !! k) ->
               loader data !! "value" = Some (default VNone (data !! k)))
         /\ (forall data' : gmap string pyval,
               (forall k, is_Some (fields !! k) -> data !! k = data' !! k) ->
               loader data = loader data').
Proof.
  intros Hbuilt. eexists. split; [reflexivity|]. intros data.
  pose proof (get_fields_key self kwargs fields Hbuilt) as Hkey.
  repeat split.
  - intros k Hk. apply Hkey in Hk as ->. reflexivity.
  - intros data' Hsame. unfold simple_loader.
    now rewrite (Hsame (FormField.name (SimpleFieldBase.base self)))
      by now apply Hkey.
Qed.

End FieldAndLoader.

Lemma loader_reads_its_field_witness :
  exists loader,
    FormField.get_loaders (SimpleFieldBase.base (Testapp.select_row "a")) = [loader]
    /\ loader {[ "colour" := VStr "solo"; "other" := VStr "x" ]} !! "value"
       = Some (VStr "solo").
Proof.
  destruct (loader_reads_its_field (Testapp.select_row "a") ∅
              (Testapp.built (SimpleFieldBase.get_fields (Testapp.select_row "a") ∅))
              eq_refl) as (loader & Hloader & Hdata).
  exists loader. split; [exact Hloader|].
  destruct (Hdata {[ "colour" := VStr "solo"; "other" := VStr "x" ]})
    as (_ & _ & Hvalue & _).
  apply (Hvalue "colour"). eexists. reflexivity.
Defined.

(** ** FormFieldBase: the type of a plugin class *)

Section FieldType.

Import FormFieldBase.

Lemma lower_char_idempotent c : lower_char (lower_char c) = lower_char c.
Proof. destruct c as [[] [] [] [] [] [] [] []]; reflexivity. Qed.

Lemma lower_idempotent s : lower (lower s) = lower s.
Proof. induction s as [|c s IH]; simpl; [reflexivity|]. now rewrite lower_char_idempotent, IH. Qed.

(** [set_field_type] gives a concrete subclass of [FormFieldBase] its name in
    lower case as [type], a str that [lower] leaves as it is, and leaves
    every other class as it was; announcing a class a second time changes
    nothing. *)
Theorem set_field_type_lower (cls : sender) :
  (is_subclass cls = true -> abstract cls = false ->
   exists ty, type (set_field_type cls) = Some ty
     /\ ty = lower (__name__ cls) /\ lower ty = ty)
  /\ (is_subclass cls = false \/ abstract cls = true -> set_field_type cls = cls)
  /\ set_field_type (set_field_type cls) = set_field_type cls.
Proof.
  unfold set_field_type. split; [|split].
  - intros -> ->. simpl. eexists. split; [reflexivity|].
    split; [reflexivity | apply lower_idempotent].
  - intros [-> | ->]; [reflexivity|]. now rewrite andb_false_r.
  - destruct (is_subclass cls) eqn:Hs, (abstract cls) eqn:Ha; simpl;
      rewrite ?Hs, ?Ha; simpl; rewrite ?lower_idempotent; reflexivity.
Qed.

End FieldType.

Lemma set_field_type_lower_witness :
  exists ty,
    FormFieldBase.type
      (FormFieldBase.set_field_type
         {| FormFieldBase.is_subclass := true; FormFieldBase.abstract := false;
            FormFieldBase.__name__ := "SimpleField_text";
            FormFieldBase.type := None |}) = Some ty
    /\ ty = "simplefield_text".
Proof.
  destruct (proj1 (set_field_type_lower
              {| FormFieldBase.is_subclass := true; FormFieldBase.abstract := false;
                 FormFieldBase.__name__ := "SimpleField_text";
                 FormFieldBase.type := None |}) eq_refl eq_refl)
    as (ty & Hty & Heq & _).
  exists ty. split; [exact Hty | exact Heq].
Defined.

(** ** The test application: the fields of Duration and the honeypot field *)

Section TestappPlugins.

Lemma append_inv_head (a b c : string) : a +:+ b = a +:+ c -> b = c.
Proof. induction a as [|x a IH]; simpl; [auto|]. intros [= H]. now apply IH. Qed.

(** Whatever the name of the row, [Duration.get_fields] returns two
    distinct fields and no other: the one for the beginning under the name
    followed by [_from], the one for the end under the name followed by
    [_until]. *)
Theorem Duration_get_fields_two (name label_from label_until : string) :
  Testapp.Duration_get_fields name label_from label_until !! (name +:+ "_from")
  = Some (Testapp.Duration_date_field label_from)
  /\ Testapp.Duration_get_fields name label_from label_until !! (name +:+ "_until")
     = Some (Testapp.Duration_date_field label_until)
  /\ size (Testapp.Duration_get_fields name label_from label_until) = 2%nat
  /\ forall k,
       is_Some (Testapp.Duration_get_fields name label_from label_until !! k)
       <-> k = name +:+ "_from" \/ k = name +:+ "_until".
Proof.
  assert (name +:+ "_until" <> name +:+ "_from") as Hne
    by (intros H; apply append_inv_head in H; discriminate).
  unfold Testapp.Duration_get_fields. repeat split.
  - rewrite lookup_insert_ne by exact Hne. apply lookup_insert_eq.
  - apply lookup_insert_eq.
  - rewrite map_size_insert_None, map_size_insert_None, map_size_empty;
      [reflexivity | apply lookup_empty |].
    rewrite lookup_insert_ne by congruence. apply lookup_empty.
  - intros [f Hf]. apply lookup_insert_Some in Hf as [[<- _] | [_ Hf]]; [now right|].
    apply lookup_insert_Some in Hf as [[<- _] | [_ Hf]]; [now left|].
    now rewrite lookup_empty in Hf.
  - intros [-> | ->].
    + rewrite lookup_insert_ne by exact Hne. rewrite lookup_insert_eq. eauto.
    + rewrite lookup_insert_eq. eauto.
Qed.

(** [HoneypotField.validate] accepts a value in one case only: the value is
    empty and the field is not required. On a required field the empty
    value is refused as missing and any other as a honeypot value. *)
Theorem HoneypotField_validate_accepts (required : bool) (repr_value value : string) :
  (Testapp.HoneypotField_validate required repr_value value = Ok tt
   <-> required = false /\ value = EmptyString)
  /\ (required = true ->
      Testapp.HoneypotField_validate required repr_value value
      = Raise (ValidationError None
                 (if nonempty value then "Invalid honeypot value " +:+ repr_value
                  else "This field is required."))).
Proof.
  unfold Testapp.HoneypotField_validate.
  destruct value as [|c value], required; simpl; split;
    try (intros _; reflexivity); try discriminate;
    split; try discriminate; try (intros [? ?]; discriminate); auto.
Qed.

End TestappPlugins.

Lemma HoneypotField_validate_accepts_witness :
  Testapp.HoneypotField_validate true "''" ""
  = Raise (ValidationError None "This field is required.").
Proof.
  exact (proj2 (HoneypotField_validate_accepts true "''" "") eq_refl).
Defined.
